(** * coSimple: a minimal CANopen master, embedded in Rocq

    Shallow embedding of [coSimple.c] / [coSimple.h].  Fixed-width C integers
    are integers of [Z] with the wrap-around written out, a CAN frame is a
    record, the four application callbacks of a [co_t] instance are state
    transformers over an abstract world [W], and every API call is a
    computation in a small state-and-fault monad over that world. *)

From Stdlib Require Import ZArith List Bool Lia.
Import ListNotations.
Local Open Scope Z_scope.

(** ** Fixed-width integers *)

Definition UINT32_MAX : Z := 4294967295.

Definition to_u8 (z : Z) : Z := z mod 2 ^ 8.
Definition to_u16 (z : Z) : Z := z mod 2 ^ 16.
Definition to_u32 (z : Z) : Z := z mod 2 ^ 32.

(** Conversion to [int32_t]: the two's complement reading of the low 32 bits. *)
Definition to_s32 (z : Z) : Z :=
  let u := to_u32 z in if u <? 2 ^ 31 then u else u - 2 ^ 32.

Definition is_u8 (z : Z) : Prop := 0 <= z < 2 ^ 8.
Definition is_u16 (z : Z) : Prop := 0 <= z < 2 ^ 16.
Definition is_u32 (z : Z) : Prop := 0 <= z < 2 ^ 32.

(** ** Configuration constants of coSimple.h *)

Definition CO_TIMEOUT_NMT : Z := 3000.
Definition CO_TIMEOUT_SDO : Z := 1000.
Definition CO_TIME_USE_TIMECB : Z := UINT32_MAX.

(** ** COB-IDs of the default communication channels ([co_cob_id_t]).
    A C enum is an integer: the classifier may return values that are none
    of the enumerators, so the enumerators are integer constants. *)

Definition COB_ID_NMT : Z := 0x000.
Definition COB_ID_SYNC : Z := 0x080.
Definition COB_ID_EMCY : Z := 0x080.
Definition COB_ID_TIME : Z := 0x100.
Definition COB_ID_TPDO1 : Z := 0x180.
Definition COB_ID_RPDO1 : Z := 0x200.
Definition COB_ID_TSDO : Z := 0x580.
Definition COB_ID_RSDO : Z := 0x600.
Definition COB_ID_HRTB : Z := 0x700.

(** NMT state change requests ([co_nmt_state_req_t]). *)
Inductive co_nmt_state_req_t : Set :=
| CO_NMT_OP | CO_NMT_STOP | CO_NMT_PRE_OP | CO_NMT_RST | CO_NMT_RST_COM.

Definition nmt_code (req : co_nmt_state_req_t) : Z :=
  match req with
  | CO_NMT_OP => 0x01
  | CO_NMT_STOP => 0x02
  | CO_NMT_PRE_OP => 0x80
  | CO_NMT_RST => 0x81
  | CO_NMT_RST_COM => 0x82
  end.

(** ** CAN frame ([co_msg_t]) *)

Record co_msg_t : Type := mkMsg {
  cobId : Z;        (* uint16_t, 4 bit function code and 7 bit node id *)
  len : Z;          (* uint8_t *)
  data : list Z     (* uint8_t data[8] *)
}.

(** [m.data[i]] *)
Definition byte_at (m : co_msg_t) (i : nat) : Z := nth i (data m) 0.

(** A frame as the C type admits it. *)
Definition wf_msg (m : co_msg_t) : Prop :=
  is_u16 (cobId m) /\ is_u8 (len m) /\
  length (data m) = 8%nat /\ Forall is_u8 (data m).

(** A designated initialiser [.data = {...}] zero-fills the rest of the array. *)
Definition data8 (init : list Z) : list Z :=
  firstn 8 (init ++ repeat 0 8).

(** [memcpy dst src n] on byte arrays; [None] when [n] bytes are not there to
    be read or written (the C call is undefined then). *)
Definition memcpy (dst src : list Z) (n : Z) : option (list Z) :=
  if (0 <=? n) && (n <=? Z.of_nat (length src)) && (n <=? Z.of_nat (length dst))
  then Some (firstn (Z.to_nat n) src ++ skipn (Z.to_nat n) dst)
  else None.

(** ** Frame classifier *)

(** COB-ID type: the function code, the first four of the eleven bits. *)
Definition getCOBIDType (msg : co_msg_t) : Z := Z.land (cobId msg) 0x780.

(** Node id: the last seven bits, returned as [uint8_t]. *)
Definition getNodeId (msg : co_msg_t) : Z := to_u8 (Z.land (cobId msg) 0x07f).

(** ** Computations: world state threaded through, faults stop the call *)

Inductive fault : Set :=
| AssertionFailed   (* an [assert] of the source does not hold *)
| OutOfBounds       (* a [memcpy] beyond an array *)
| OutOfFuel.        (* the polling loop was cut off by the model *)

Inductive result (A : Type) : Type :=
| Ret (a : A)
| Stop (f : fault).
Arguments Ret {A} a.
Arguments Stop {A} f.

Definition M (W A : Type) : Type := W -> result A * W.

Definition ret {W A : Type} (a : A) : M W A := fun w => (Ret a, w).

Definition bind {W A B : Type} (c : M W A) (k : A -> M W B) : M W B :=
  fun w => match c w with
           | (Ret a, w') => k a w'
           | (Stop f, w') => (Stop f, w')
           end.

Definition halt {W A : Type} (f : fault) : M W A := fun w => (Stop f, w).

Definition assert {W : Type} (b : bool) : M W unit :=
  fun w => (if b then Ret tt else Stop AssertionFailed, w).

(** Invoke an application callback. *)
Definition call {W A : Type} (f : W -> A * W) : M W A :=
  fun w => let (a, w') := f w in (Ret a, w').

Notation "x <- c ;; k" := (bind c (fun x => k))
  (at level 61, c at next level, right associativity).
Notation "c ;;; k" := (bind c (fun _ => k))
  (at level 61, right associativity).

(** ** The coSimple instance and its API *)

Section CoSimple.

Context {W : Type}.

(** [co_t]: the callbacks bound by the application, and the SYNC counter
    (present when [CO_SYNC_COUNTER_ENABLE] is defined).  [rx] is handed the
    frame buffer and hands it back, written or not, with its status. *)
Record co_t : Type := mkCo {
  rx : co_msg_t -> W -> (Z * co_msg_t) * W;
  tx : co_msg_t -> W -> Z * W;
  emcy : Z -> Z -> Z -> list Z -> W -> unit * W;
  ms : W -> Z * W;
  syncCounter : Z
}.

Definition set_syncCounter (co : co_t) (c : Z) : co_t :=
  mkCo (rx co) (tx co) (emcy co) (ms co) c.

(** Check for timeout: -1 on timeout, 0 on no timeout.  [-delta] on the
    most negative [int32_t] wraps to itself on the targets of the library,
    which the conversion of the result to [uint32_t] reproduces. *)
Definition haveTimeout (co : co_t) (start timeout : Z) : M W Z :=
  assert (timeout <? UINT32_MAX / 2) ;;;
  now <- call (ms co) ;;
  let delta := to_s32 (now - start) in
  let duration := to_u32 (if delta <? 0 then - delta else delta) in
  if duration >=? timeout then ret (-1) else ret 0.

(** *** NMT *)

Definition coNMTReq (co : co_t) (nodeId : Z) (req : co_nmt_state_req_t) : M W Z :=
  assert (nodeId <=? 127) ;;;  (* nodeId is allowed to be zero *)
  let msg := mkMsg COB_ID_NMT 2 (data8 [to_u8 (nmt_code req); to_u8 nodeId]) in
  call (tx co msg).

(** The frame looked for by [coNMTWaitBoot]: a heartbeat of the requested
    node with exactly one byte of data, the NMT state 0 = boot-up. *)
Definition isBootUp (nodeId : Z) (msg : co_msg_t) : bool :=
  (COB_ID_HRTB =? getCOBIDType msg)
  && (nodeId =? getNodeId msg)
  && (1 =? len msg)
  && (0x00 =? byte_at msg 0).

(** [while (-1 != (ret = co->rx(&msg))) { ... }] of [coNMTWaitBoot]; [msg] is
    the current content of the local frame buffer. *)
Fixpoint waitBoot_loop (co : co_t) (nodeId start : Z) (fuel : nat)
    (msg : co_msg_t) : M W Z :=
  match fuel with
  | O => halt OutOfFuel
  | S fuel' =>
      r <- call (rx co msg) ;;
      let (ret_, msg') := r in
      if ret_ =? -1 then ret ret_   (* forward error of rx callback *)
      else if isBootUp nodeId msg' then ret 0
      else
        t <- haveTimeout co start CO_TIMEOUT_NMT ;;
        if negb (t =? 0) then ret (-1)
        else waitBoot_loop co nodeId start fuel' msg'
  end.

(** [msg0] is the indeterminate initial content of the uninitialised local
    [co_msg_t msg]. *)
Definition coNMTWaitBoot (co : co_t) (fuel : nat) (msg0 : co_msg_t)
    (nodeId : Z) : M W Z :=
  assert ((0 <? nodeId) && (nodeId <=? 127)) ;;;
  start <- call (ms co) ;;
  waitBoot_loop co nodeId start fuel msg0.

(** *** SYNC.  [CO_SYNC_COUNTER_ENABLE] is the compile-time switch of the
    header, taken as a parameter.  The call updates the instance. *)

Definition coSYNC (CO_SYNC_COUNTER_ENABLE : bool) (co : co_t) : M W (Z * co_t) :=
  if CO_SYNC_COUNTER_ENABLE then
    let msg := mkMsg COB_ID_SYNC 1 (data8 [syncCounter co]) in
    (* increment SYNC counter *)
    let co' := set_syncCounter co (to_u8 (syncCounter co + 1)) in
    r <- call (tx co' msg) ;;
    ret (r, co')
  else
    let msg := mkMsg COB_ID_SYNC 0 (data8 []) in
    r <- call (tx co msg) ;;
    ret (r, co).

Definition coSYNCResetCounter (co : co_t) : M W (Z * co_t) :=
  ret (0, set_syncCounter co 1).

(** *** TIME *)

Definition coTIME (co : co_t) (ms_ : Z) : M W Z :=
  t <- (if CO_TIME_USE_TIMECB =? ms_ then call (ms co) else ret ms_) ;;
  let msg := mkMsg COB_ID_TIME 6
    (data8 [Z.land t 0xff; Z.land (Z.shiftr t 8) 0xff;
            Z.land (Z.shiftr t 16) 0xff; 0; 0; 0]) in
  call (tx co msg).

(** *** PDO *)

Definition coTPDO (co : co_t) (nodeId : Z) (data : list Z) (len : Z) : M W Z :=
  assert ((0 <? nodeId) && (nodeId <=? 127)) ;;;
  assert ((0 <? len) && (len <=? 8)) ;;;
  match memcpy (data8 []) data len with
  | Some d =>
      (* Master Tx, Slave Rx *)
      call (tx co (mkMsg (to_u16 (COB_ID_RPDO1 + nodeId)) (to_u8 len) d))
  | None => halt OutOfBounds
  end.

(** [data] and [len] are the contents of the caller's buffer and of [*len]
    on entry; the result carries their contents on return. *)
Definition coRPDO (co : co_t) (msg0 : co_msg_t) (nodeId : Z)
    (data : list Z) (len : Z) : M W (Z * list Z * Z) :=
  assert ((0 <? nodeId) && (nodeId <=? 127)) ;;;
  r <- call (rx co msg0) ;;
  let (ret_, msg) := r in
  if negb (0 =? ret_) then
    (* either no data or error, forward to application *)
    ret (ret_, data, len)
  else
    let cobId := getCOBIDType msg in
    let rxNodeId := getNodeId msg in
    if COB_ID_EMCY =? cobId then
      (* emergency, assemble fields and forward to application *)
      let eec := to_u32 (Z.lor (byte_at msg 0) (Z.shiftl (byte_at msg 1) 8)) in
      call (emcy co rxNodeId (to_u16 eec) (byte_at msg 2)
                 (let 'mkMsg _ _ d := msg in skipn 3 d)) ;;;
      ret (1, data, len)
    else if (COB_ID_TPDO1 =? cobId) && (nodeId =? rxNodeId) then
      (* our looked for PDO, copy data to application *)
      let 'mkMsg _ mlen mdata := msg in
      match memcpy data mdata mlen with
      | Some d => ret (0, d, mlen)
      | None => halt OutOfBounds
      end
    else
      (* not something we can handle *)
      ret (1, data, len).

(** *** SDO *)

(** The part of the response test shared by [coSDOWrite] and [coSDORead]. *)
Definition isSDOResponse (nodeId index subIndex : Z) (msg : co_msg_t) : bool :=
  (COB_ID_TSDO =? getCOBIDType msg)
  && (nodeId =? getNodeId msg)
  && (8 =? len msg)
  && (Z.land index 0xff =? byte_at msg 1)
  && (Z.land (Z.shiftr index 8) 0xff =? byte_at msg 2)
  && (subIndex =? byte_at msg 3).

(** The request frame of [coSDOWrite]. *)
Definition sdoWriteRequest (nodeId index subIndex data len : Z) : co_msg_t :=
  let nField := to_u8 (Z.shiftl (4 - len) 2) in   (* count of unused bytes *)
  mkMsg (to_u16 (COB_ID_RSDO + nodeId)) 8
    (data8 [to_u8 (Z.lor 0x23 nField);
            Z.land index 0xff; Z.land (Z.shiftr index 8) 0xff;
            to_u8 subIndex;
            Z.land data 0xff;
            if 1 <? len then Z.land (Z.shiftr data 8) 0xff else 0x00;
            if 2 <? len then Z.land (Z.shiftr data 16) 0xff else 0x00;
            if 3 <? len then Z.land (Z.shiftr data 24) 0xff else 0x00]).

Fixpoint sdoWrite_loop (co : co_t) (nodeId index subIndex start : Z)
    (fuel : nat) (msg : co_msg_t) : M W Z :=
  match fuel with
  | O => halt OutOfFuel
  | S fuel' =>
      r <- call (rx co msg) ;;
      let (ret_, msg') := r in
      if ret_ =? -1 then ret (to_u32 ret_)   (* forward error of rx callback *)
      else if isSDOResponse nodeId index subIndex msg' then
        (* this is for us, check status code *)
        let cs := Z.land (byte_at msg' 0) 0xf0 in
        if (cs =? 0x20) || (cs =? 0x60) then ret 0
        else ret (to_u32 (-1))
      else
        t <- haveTimeout co start CO_TIMEOUT_SDO ;;
        if negb (t =? 0) then ret (to_u32 (-1))
        else sdoWrite_loop co nodeId index subIndex start fuel' msg'
  end.

Definition coSDOWrite (co : co_t) (fuel : nat)
    (nodeId index subIndex data len : Z) : M W Z :=
  assert ((0 <? nodeId) && (nodeId <=? 127)) ;;;
  assert ((0 <? len) && (len <=? 4)) ;;;   (* at max (u)int32_t supported! *)
  let msg := sdoWriteRequest nodeId index subIndex data len in
  r <- call (tx co msg) ;;
  if negb (0 =? r) then ret (to_u32 r)    (* error while sending *)
  else
    start <- call (ms co) ;;
    sdoWrite_loop co nodeId index subIndex start fuel msg.

(** The request frame of [coSDORead]. *)
Definition sdoReadRequest (nodeId index subIndex : Z) : co_msg_t :=
  mkMsg (to_u16 (COB_ID_RSDO + nodeId)) 8
    (data8 [0x40; Z.land index 0xff; Z.land (Z.shiftr index 8) 0xff;
            to_u8 subIndex]).

(** The response test of [coSDORead]. *)
Definition isSDOReadResponse (nodeId index subIndex nField : Z)
    (msg : co_msg_t) : bool :=
  isSDOResponse nodeId index subIndex msg
  && (0x03 =? Z.land (byte_at msg 0) 0x03)       (* e[1]=1, s[0]=1 *)
  && (nField =? Z.land (byte_at msg 0) 0x0c).    (* n[3:2] *)

(** The value stored through [data] on a successful read.  The shifts are
    done in [int]; [msg.data[7] << 24] leaves its range for bytes from 0x80
    on, and the conversion to [uint32_t] keeps the same 32 bits. *)
Definition sdoReadValue (msg : co_msg_t) (len : Z) : Z :=
  to_u32
    (Z.lor (Z.lor (Z.lor (byte_at msg 4)
      (if 1 <? len then Z.shiftl (byte_at msg 5) 8 else 0x00))
      (if 2 <? len then Z.shiftl (byte_at msg 6) 16 else 0x00))
      (if 3 <? len then Z.shiftl (byte_at msg 7) 24 else 0x00)).

(** [data] is the content of [*data]; the result carries it back. *)
Fixpoint sdoRead_loop (co : co_t) (nodeId index subIndex start nField : Z)
    (data len : Z) (fuel : nat) (msg : co_msg_t) : M W (Z * Z) :=
  match fuel with
  | O => halt OutOfFuel
  | S fuel' =>
      r <- call (rx co msg) ;;
      let (ret_, msg') := r in
      if ret_ =? -1 then ret (to_u32 ret_, data)
      else if isSDOReadResponse nodeId index subIndex nField msg' then
        let cs := Z.land (byte_at msg' 0) 0xf0 in
        if (cs =? 0x40) || (cs =? 0x60) then ret (0, sdoReadValue msg' len)
        else ret (to_u32 (-1), data)
      else
        t <- haveTimeout co start CO_TIMEOUT_SDO ;;
        if negb (t =? 0) then ret (to_u32 (-1), data)
        else sdoRead_loop co nodeId index subIndex start nField data len fuel' msg'
  end.

Definition coSDORead (co : co_t) (fuel : nat)
    (nodeId index subIndex data len : Z) : M W (Z * Z) :=
  assert ((0 <? nodeId) && (nodeId <=? 127)) ;;;
  assert ((0 <? len) && (len <=? 4)) ;;;
  let msg := sdoReadRequest nodeId index subIndex in
  r <- call (tx co msg) ;;
  if negb (0 =? r) then ret (to_u32 r, data)
  else
    start <- call (ms co) ;;
    let nField := to_u8 (Z.shiftl (4 - len) 2) in
    sdoRead_loop co nodeId index subIndex start nField data len fuel msg.

End CoSimple.

Arguments co_t W : clear implicits.

(** ** A scripted bus: the collaborators of one instance

    The application side of an instance, for stating what a call does on a
    given run: [rx] reports the scripted events in order (a status and, when
    the driver writes the buffer, the frame written), [ms] reads the scripted
    clock values in order, [tx] logs the frame it is handed and reports the
    scripted status, [emcy] logs the event. *)

(** An emergency event as delivered to the sink: node, error code, error
    register, manufacturer specific field. *)
Record emcy_event : Type := mkEmcy {
  emcy_node : Z;
  emcy_eec : Z;
  emcy_er : Z;
  emcy_msef : list Z
}.

Record bus : Type := mkBus {
  rx_pending : list (Z * option co_msg_t);
  clock : list Z;
  tx_status : list Z;
  tx_log : list co_msg_t;
  emcy_log : list emcy_event
}.

(** Once the script is over the driver reports an error. *)
Definition bus_rx (msg : co_msg_t) (b : bus) : (Z * co_msg_t) * bus :=
  match rx_pending b with
  | [] => ((-1, msg), b)
  | (status, written) :: rest =>
      ((status, match written with Some m => m | None => msg end),
       mkBus rest (clock b) (tx_status b) (tx_log b) (emcy_log b))
  end.

(** Once the script is over every frame is sent. *)
Definition bus_tx (msg : co_msg_t) (b : bus) : Z * bus :=
  match tx_status b with
  | [] => (0, mkBus (rx_pending b) (clock b) [] (tx_log b ++ [msg]) (emcy_log b))
  | status :: rest =>
      (status, mkBus (rx_pending b) (clock b) rest (tx_log b ++ [msg]) (emcy_log b))
  end.

Definition bus_emcy (nodeId eec er : Z) (msef : list Z) (b : bus) : unit * bus :=
  (tt, mkBus (rx_pending b) (clock b) (tx_status b) (tx_log b)
             (emcy_log b ++ [mkEmcy nodeId eec er msef])).

(** Once the script is over the clock reads 0. *)
Definition bus_ms (b : bus) : Z * bus :=
  match clock b with
  | [] => (0, b)
  | t :: rest =>
      (t, mkBus (rx_pending b) rest (tx_status b) (tx_log b) (emcy_log b))
  end.

Definition bus_co (counter : Z) : co_t bus :=
  mkCo bus_rx bus_tx bus_emcy bus_ms counter.

(** Frames received one after the other, each reported as a reception. *)
Definition received (frames : list co_msg_t) : list (Z * option co_msg_t) :=
  map (fun f => (0, Some f)) frames.

(** The buffer after the frames [pre] were received into it. *)
Definition buffer_after (pre : list co_msg_t) (msg : co_msg_t) : co_msg_t :=
  fold_left (fun _ f => f) pre msg.

(** A bus on which nothing was sent yet. *)
Definition idle_bus (rxs : list (Z * option co_msg_t)) (ts : list Z) : bus :=
  mkBus rxs ts [] [] [].

(** Cyclic operation: [n] SYNCs in a row on one instance; the result is the
    status of each call, and the instance after the last. *)
Fixpoint sync_cycles {W : Type} (enable : bool) (n : nat) (co : co_t W)
    : M W (list Z * co_t W) :=
  match n with
  | O => ret ([], co)
  | S n' =>
      r <- coSYNC enable co ;;
      let (status, co') := r in
      rs <- sync_cycles enable n' co' ;;
      let (statuses, co'') := rs in
      ret (status :: statuses, co'')
  end.

(** The SYNC frame carrying counter value [c]. *)
Definition sync_frame (c : Z) : co_msg_t := mkMsg COB_ID_SYNC 1 (data8 [c]).

(** ** Elapsed time as the specification words it *)

(** The wrap-around difference [now - start] in the ring of width 2^32. *)
Definition elapsed (start now : Z) : Z := (now - start) mod 2 ^ 32.

(** The little-endian value of the first [n] of the bytes [bs]. *)
Fixpoint le_value (n : nat) (bs : list Z) : Z :=
  match n, bs with
  | S n', b :: bs' => b + 256 * le_value n' bs'
  | _, _ => 0
  end.

(** ** Poll events that a blocking call passes over *)

(** The buffer after one [rx] event of the scripted bus. *)
Definition buffer_on (ev : Z * option co_msg_t) (msg : co_msg_t) : co_msg_t :=
  match snd ev with Some m => m | None => msg end.

(** The buffer after the events [evs]. *)
Definition buffer_after_events (evs : list (Z * option co_msg_t))
    (msg : co_msg_t) : co_msg_t :=
  fold_left (fun m ev => buffer_on ev m) evs msg.

(** None of the events [evs] is a receive error, and after none of them
    the buffer passes the frame test [test]. *)
Fixpoint passed_over (test : co_msg_t -> bool) (msg : co_msg_t)
    (evs : list (Z * option co_msg_t)) : bool :=
  match evs with
  | [] => true
  | ev :: evs' =>
      negb (fst ev =? -1) && negb (test (buffer_on ev msg))
      && passed_over test (buffer_on ev msg) evs'
  end.

(** ** The callbacks of example.c

    The example binds stubs: [canRx] reports "no new data" and leaves the
    frame alone, [canTx] reports an error, [coEMCY] only prints, [getMs]
    returns 0.  None of them keeps state. *)

Definition CAN_ID : Z := 127.

Definition canRx (msg : co_msg_t) (w : unit) : (Z * co_msg_t) * unit :=
  ((1, msg), w).

Definition canTx (msg : co_msg_t) (w : unit) : Z * unit := (-1, w).

Definition coEMCY (nodeId eec er : Z) (msef : list Z) (w : unit) : unit * unit :=
  (tt, w).

Definition getMs (w : unit) : Z * unit := (0, w).

(** [co_t co = {.rx = canRx, .tx = canTx, .emcy = coEMCY, .ms = getMs}] *)
Definition example_co : co_t unit := mkCo canRx canTx coEMCY getMs 0.

(** * Properties *)

(** ** Integer and bit-level facts *)

Lemma to_u32_range (z : Z) : 0 <= to_u32 z < 2 ^ 32.
Proof. unfold to_u32. apply Z.mod_pos_bound. lia. Qed.

Lemma to_u32_small (z : Z) : 0 <= z < 2 ^ 32 -> to_u32 z = z.
Proof. intros Hz. unfold to_u32. now apply Z.mod_small. Qed.

Lemma to_u8_small (z : Z) : 0 <= z < 2 ^ 8 -> to_u8 z = z.
Proof. intros Hz. unfold to_u8. now apply Z.mod_small. Qed.

Lemma to_u16_small (z : Z) : 0 <= z < 2 ^ 16 -> to_u16 z = z.
Proof. intros Hz. unfold to_u16. now apply Z.mod_small. Qed.

(** The magnitude of the signed difference is the wrap-around difference
    itself up to 2^31 and its complement to 2^32 beyond. *)
Lemma duration_elapsed (start now : Z) :
  let delta := to_s32 (now - start) in
  to_u32 (if delta <? 0 then - delta else delta) =
  if elapsed start now <=? 2 ^ 31 then elapsed start now
  else 2 ^ 32 - elapsed start now.
Proof.
  pose proof (to_u32_range (now - start)) as Hr.
  unfold to_s32. change (to_u32 (now - start)) with (elapsed start now) in *.
  set (e := elapsed start now) in *. cbv zeta.
  destruct (Z.ltb_spec e (2 ^ 31)) as [Hlt | Hge].
  - destruct (Z.ltb_spec e 0); [lia |].
    destruct (Z.leb_spec e (2 ^ 31)); [| lia].
    apply to_u32_small. lia.
  - destruct (Z.ltb_spec (e - 2 ^ 32) 0); [| lia].
    destruct (Z.leb_spec e (2 ^ 31)).
    + replace e with (2 ^ 31) by lia. reflexivity.
    + replace (- (e - 2 ^ 32)) with (2 ^ 32 - e) by lia.
      apply to_u32_small. lia.
Qed.

(** A property checked on every value below [n] holds on the whole range. *)
Lemma range_forallb (n : nat) (p : Z -> bool) :
  forallb p (map Z.of_nat (seq 0 n)) = true ->
  forall z, 0 <= z < Z.of_nat n -> p z = true.
Proof.
  intros Hall z Hz. rewrite forallb_forall in Hall. apply Hall.
  rewrite in_map_iff. exists (Z.to_nat z). split; [lia |].
  apply in_seq. lia.
Qed.

Lemma land_0xff (z : Z) : Z.land z 0xff = z mod 256.
Proof. change 0xff with (Z.ones 8). now rewrite Z.land_ones by lia. Qed.

Lemma land_0x7f (z : Z) : Z.land z 0x07f = z mod 128.
Proof. change 0x07f with (Z.ones 7). now rewrite Z.land_ones by lia. Qed.

Lemma shiftr_8 (z : Z) : Z.shiftr z 8 = z / 256.
Proof. now rewrite Z.shiftr_div_pow2 by lia. Qed.

(** The function code of an identifier [base + node] whose base has its low
    seven bits clear. *)
Lemma land_0x780_base (k node : Z) :
  0 <= k < 16 -> 0 <= node < 128 ->
  Z.land (128 * k + node) 0x780 = 128 * k.
Proof.
  intros Hk Hn.
  pose proof (range_forallb 16
    (fun k => forallb (fun n => Z.land (128 * k + n) 0x780 =? 128 * k)
                (map Z.of_nat (seq 0 128)))) as H.
  specialize (H ltac:(now vm_compute) k ltac:(lia)). cbv beta in H.
  apply Z.eqb_eq.
  apply (range_forallb 128 (fun n => Z.land (128 * k + n) 0x780 =? 128 * k) H).
  lia.
Qed.

(** An eleven-bit identifier is its function code plus its node id. *)
Lemma cobId_split (id : Z) :
  0 <= id < 2 ^ 11 -> id = Z.land id 0x780 + Z.land id 0x07f.
Proof.
  intros Hid. apply Z.eqb_eq.
  apply (range_forallb 2048
           (fun id => id =? Z.land id 0x780 + Z.land id 0x07f));
    [now vm_compute | lia].
Qed.

(** Classifier and node extractor on the identifier [base + node]. *)
Lemma classify_base_node (k node l : Z) (d : list Z) :
  0 <= k < 16 -> 0 <= node < 128 ->
  let m := mkMsg (to_u16 (128 * k + node)) l d in
  getCOBIDType m = 128 * k /\ getNodeId m = node /\ cobId m = 128 * k + node.
Proof.
  intros Hk Hn m. unfold m, getCOBIDType, getNodeId. cbn [cobId].
  rewrite to_u16_small by lia.
  rewrite land_0x780_base by lia. split; [reflexivity |]. split; [| reflexivity].
  rewrite land_0x7f.
  replace ((128 * k + node) mod 128) with node.
  - apply to_u8_small. lia.
  - symmetry. rewrite Z.add_comm, Z.mul_comm, Z.mod_add by lia.
    apply Z.mod_small. lia.
Qed.

(** Bytes put side by side do not overlap: or-ing is adding. *)
Lemma lor_shiftl_add (a b n : Z) :
  0 <= n -> 0 <= a < 2 ^ n ->
  Z.lor a (Z.shiftl b n) = a + b * 2 ^ n.
Proof.
  intros Hn Ha.
  assert (Hd : Z.land a (Z.shiftl b n) = 0).
  { apply Z.bits_inj'. intros i Hi.
    rewrite Z.land_spec, Z.bits_0.
    destruct (Z.lt_ge_cases i n) as [Hlt | Hge].
    - rewrite Z.shiftl_spec_low by lia. apply andb_false_r.
    - rewrite <- (Z.mod_small a (2 ^ n)) by lia.
      rewrite Z.mod_pow2_bits_high by lia. reflexivity. }
  pose proof (Z.add_lor_land a (Z.shiftl b n)) as Hadd.
  rewrite Hd, Z.add_0_r in Hadd. rewrite Hadd.
  now rewrite Z.shiftl_mul_pow2 by lia.
Qed.

(** ** Running the timeout check *)

Section Timeout.

Context {W : Type} (co : co_t W).

(** One run of [haveTimeout] on a clock reading [now]. *)
Lemma haveTimeout_run (start timeout now : Z) (w w' : W) :
  ms co w = (now, w') ->
  timeout < 2 ^ 31 - 1 ->
  haveTimeout co start timeout w =
  (Ret (if timeout <=?
           (if elapsed start now <=? 2 ^ 31 then elapsed start now
            else 2 ^ 32 - elapsed start now)
        then -1 else 0), w').
Proof.
  intros Hms Hb. unfold haveTimeout, bind, assert, call.
  change (UINT32_MAX / 2) with (2 ^ 31 - 1).
  destruct (Z.ltb_spec timeout (2 ^ 31 - 1)); [| lia].
  rewrite Hms. cbv zeta. rewrite duration_elapsed, Z.geb_leb.
  destruct (timeout <=? _); reflexivity.
Qed.

(** A bound the assertion rejects stops the call before the clock is read. *)
Lemma haveTimeout_assert (start timeout : Z) (w : W) :
  2 ^ 31 - 1 <= timeout ->
  haveTimeout co start timeout w = (Stop AssertionFailed, w).
Proof.
  intros Hb. unfold haveTimeout, bind, assert.
  change (UINT32_MAX / 2) with (2 ^ 31 - 1).
  destruct (Z.ltb_spec timeout (2 ^ 31 - 1)); [lia | reflexivity].
Qed.

End Timeout.

(** C1 (as amended).  For every start and clock reading and every bound below
    2^31 - 1, the bound the assertion of [haveTimeout] admits, the check
    reports timeout (-1) exactly when the wrap-around difference
    [now - start] is at least the bound, as long as that difference is at
    most 2^31; beyond 2^31 it compares the complement of the difference to
    2^32 with the bound instead. *)
Theorem haveTimeout_elapsed :
  forall (W : Type) (co : co_t W) (start timeout now : Z) (w w' : W),
    ms co w = (now, w') ->
    is_u32 start -> is_u32 now ->
    0 <= timeout < 2 ^ 31 - 1 ->
    haveTimeout co start timeout w =
    (Ret (if timeout <=?
             (if elapsed start now <=? 2 ^ 31 then elapsed start now
              else 2 ^ 32 - elapsed start now)
          then -1 else 0), w').
Proof.
  intros W co start timeout now w w' Hms _ _ [_ Hb].
  now apply haveTimeout_run.
Qed.

(** The two runs across the counter wrap named by the specification: from
    start 0xFFFFFFF0 and bound 100, the reading 0x00000010 (elapsed 32) is
    not yet expired and the reading 0x00000100 is expired. *)
Lemma haveTimeout_elapsed_wrap_runs :
  (is_u32 0xFFFFFFF0 /\ is_u32 0x10 /\ 0 <= 100 < 2 ^ 31 - 1 /\
   elapsed 0xFFFFFFF0 0x10 = 32 /\
   haveTimeout (bus_co 0) 0xFFFFFFF0 100 (idle_bus [] [0x10]) =
   (Ret 0, idle_bus [] [])) /\
  (is_u32 0xFFFFFFF0 /\ is_u32 0x100 /\ 0 <= 100 < 2 ^ 31 - 1 /\
   haveTimeout (bus_co 0) 0xFFFFFFF0 100 (idle_bus [] [0x100]) =
   (Ret (-1), idle_bus [] [])).
Proof.
  split.
  - split; [unfold is_u32; lia |]. split; [unfold is_u32; lia |].
    split; [lia |]. split; [reflexivity |].
    apply (haveTimeout_elapsed bus (bus_co 0) 0xFFFFFFF0 100 0x10
             (idle_bus [] [0x10]) (idle_bus [] []) eq_refl);
      unfold is_u32; lia.
  - split; [unfold is_u32; lia |]. split; [unfold is_u32; lia |].
    split; [lia |].
    apply (haveTimeout_elapsed bus (bus_co 0) 0xFFFFFFF0 100 0x100
             (idle_bus [] [0x100]) (idle_bus [] []) eq_refl);
      unfold is_u32; lia.
Defined.

(** C1 as stated fails.  With start 10, reading 5 and bound 100 the
    wrap-around difference is 0xFFFFFFFB, far above the bound, and the check
    reports no timeout; read as a signed difference instead, start 200 and
    reading 0 give -200, below the bound, and the check reports timeout; and
    the bound 2^31 - 1, below 2^31, is stopped by the assertion.  So the
    check does not report timeout exactly when the wrap-around difference
    reaches the bound. *)
Lemma haveTimeout_elapsed_counterexample :
  (is_u32 10 /\ is_u32 5 /\ 0 <= 100 < 2 ^ 31 /\
   100 <= elapsed 10 5 /\
   haveTimeout (bus_co 0) 10 100 (idle_bus [] [5]) = (Ret 0, idle_bus [] [])) /\
  (is_u32 200 /\ is_u32 0 /\ 0 <= 100 < 2 ^ 31 /\
   to_s32 (0 - 200) < 100 /\
   haveTimeout (bus_co 0) 200 100 (idle_bus [] [0]) = (Ret (-1), idle_bus [] [])) /\
  (0 <= 2 ^ 31 - 1 < 2 ^ 31 /\
   haveTimeout (bus_co 0) 0 (2 ^ 31 - 1) (idle_bus [] [0])
   = (Stop AssertionFailed, idle_bus [] [0])) /\
  ~ (forall start now timeout : Z,
        is_u32 start -> is_u32 now -> 0 <= timeout < 2 ^ 31 ->
        fst (haveTimeout (bus_co 0) start timeout (idle_bus [] [now])) = Ret (-1)
        <-> timeout <= elapsed start now).
Proof.
  assert (He : 100 <= elapsed 10 5) by (now vm_compute).
  split; [| split; [| split]].
  - unfold is_u32. repeat split; try lia; reflexivity.
  - unfold is_u32. repeat split; try lia; try reflexivity.
  - split; [lia | reflexivity].
  - intros Hclaim.
    destruct (Hclaim 10 5 100) as [_ Hback]; try (unfold is_u32; lia).
    specialize (Hback He). discriminate Hback.
Qed.

(** ** Assertions that hold *)

Lemma assert_holds {W A : Type} (b : bool) (k : M W A) (w : W) :
  b = true -> (assert b ;;; k) w = k w.
Proof. intros ->. reflexivity. Qed.

Lemma in_range_b (lo hi z : Z) :
  lo < z <= hi -> (lo <? z) && (z <=? hi) = true.
Proof.
  intros Hz. apply andb_true_intro.
  split; [apply Z.ltb_lt | apply Z.leb_le]; lia.
Qed.

(** ** What the polling loops leave alone on the scripted bus *)

Section BusLog.

Variable c : Z.

Lemma bus_rx_log (msg : co_msg_t) (b : bus) :
  tx_log (snd (bus_rx msg b)) = tx_log b.
Proof. unfold bus_rx. destruct (rx_pending b) as [| [s f] rest]; reflexivity. Qed.

Lemma bus_ms_log (b : bus) : tx_log (snd (bus_ms b)) = tx_log b.
Proof. unfold bus_ms. destruct (clock b); reflexivity. Qed.

Lemma haveTimeout_log (start timeout : Z) (b : bus) :
  tx_log (snd (haveTimeout (bus_co c) start timeout b)) = tx_log b.
Proof.
  unfold haveTimeout, bind, assert, call. cbn [ms bus_co].
  destruct (timeout <? UINT32_MAX / 2); [| reflexivity].
  pose proof (bus_ms_log b) as Hb. destruct (bus_ms b) as [now b1].
  cbn [snd] in Hb. destruct (_ >=? timeout); exact Hb.
Qed.

Lemma sdoWrite_loop_log (nodeId index subIndex start : Z) (fuel : nat) :
  forall (msg : co_msg_t) (b : bus),
    tx_log (snd (sdoWrite_loop (bus_co c) nodeId index subIndex start fuel msg b))
    = tx_log b.
Proof.
  induction fuel as [| fuel IH]; intros msg b; [reflexivity |].
  cbn [sdoWrite_loop]. unfold bind at 1, call at 1. cbn [rx bus_co].
  pose proof (bus_rx_log msg b) as Hb.
  destruct (bus_rx msg b) as [[s m] b1]. cbn [snd] in Hb.
  destruct (s =? -1); [exact Hb |].
  destruct (isSDOResponse nodeId index subIndex m).
  - destruct (_ || _); exact Hb.
  - unfold bind. pose proof (haveTimeout_log start CO_TIMEOUT_SDO b1) as Ht.
    destruct (haveTimeout (bus_co c) start CO_TIMEOUT_SDO b1) as [[t | f] b2];
      cbn [snd] in Ht; [| cbn; congruence].
    destruct (negb (t =? 0)); [cbn; congruence |].
    rewrite IH. congruence.
Qed.

Lemma sdoRead_loop_log (nodeId index subIndex start nField data len : Z)
    (fuel : nat) :
  forall (msg : co_msg_t) (b : bus),
    tx_log (snd (sdoRead_loop (bus_co c) nodeId index subIndex start nField
                   data len fuel msg b))
    = tx_log b.
Proof.
  induction fuel as [| fuel IH]; intros msg b; [reflexivity |].
  cbn [sdoRead_loop]. unfold bind at 1, call at 1. cbn [rx bus_co].
  pose proof (bus_rx_log msg b) as Hb.
  destruct (bus_rx msg b) as [[s m] b1]. cbn [snd] in Hb.
  destruct (s =? -1); [exact Hb |].
  destruct (isSDOReadResponse nodeId index subIndex nField m).
  - destruct (_ || _); exact Hb.
  - unfold bind. pose proof (haveTimeout_log start CO_TIMEOUT_SDO b1) as Ht.
    destruct (haveTimeout (bus_co c) start CO_TIMEOUT_SDO b1) as [[t | f] b2];
      cbn [snd] in Ht; [| cbn; congruence].
    destruct (negb (t =? 0)); [cbn; congruence |].
    rewrite IH. congruence.
Qed.

(** The frame handed to [tx] by [coSDOWrite] is its request frame, and the
    only one. *)
Lemma coSDOWrite_log (fuel : nat) (nodeId index subIndex data len : Z) (b : bus) :
  1 <= nodeId <= 127 -> 1 <= len <= 4 ->
  tx_log (snd (coSDOWrite (bus_co c) fuel nodeId index subIndex data len b))
  = tx_log b ++ [sdoWriteRequest nodeId index subIndex data len].
Proof.
  intros Hn Hl. unfold coSDOWrite.
  rewrite assert_holds by (apply in_range_b; lia).
  rewrite assert_holds by (apply in_range_b; lia).
  unfold bind at 1, call at 1. cbn [tx bus_co].
  set (req := sdoWriteRequest nodeId index subIndex data len).
  assert (Hb : tx_log (snd (bus_tx req b)) = tx_log b ++ [req]).
  { unfold bus_tx. destruct (tx_status b); reflexivity. }
  destruct (bus_tx req b) as [r b1]. cbn [snd] in Hb.
  destruct (negb (0 =? r)); [exact Hb |].
  unfold bind, call. cbn [ms bus_co].
  pose proof (bus_ms_log b1) as Hm. destruct (bus_ms b1) as [start b2].
  cbn [snd] in Hm. rewrite sdoWrite_loop_log. congruence.
Qed.

Lemma coSDORead_log (fuel : nat) (nodeId index subIndex data len : Z) (b : bus) :
  1 <= nodeId <= 127 -> 1 <= len <= 4 ->
  tx_log (snd (coSDORead (bus_co c) fuel nodeId index subIndex data len b))
  = tx_log b ++ [sdoReadRequest nodeId index subIndex].
Proof.
  intros Hn Hl. unfold coSDORead.
  rewrite assert_holds by (apply in_range_b; lia).
  rewrite assert_holds by (apply in_range_b; lia).
  unfold bind at 1, call at 1. cbn [tx bus_co].
  set (req := sdoReadRequest nodeId index subIndex).
  assert (Hb : tx_log (snd (bus_tx req b)) = tx_log b ++ [req]).
  { unfold bus_tx. destruct (tx_status b); reflexivity. }
  destruct (bus_tx req b) as [r b1]. cbn [snd] in Hb.
  destruct (negb (0 =? r)); [exact Hb |].
  unfold bind, call. cbn [ms bus_co].
  pose proof (bus_ms_log b1) as Hm. destruct (bus_ms b1) as [start b2].
  cbn [snd] in Hm. rewrite sdoRead_loop_log. congruence.
Qed.

Lemma coTPDO_log (nodeId : Z) (data : list Z) (len : Z) (b : bus) :
  1 <= nodeId <= 127 -> 1 <= len <= 8 -> len <= Z.of_nat (length data) ->
  tx_log (snd (coTPDO (bus_co c) nodeId data len b))
  = tx_log b ++ [mkMsg (to_u16 (COB_ID_RPDO1 + nodeId)) (to_u8 len)
                   (firstn (Z.to_nat len) data
                    ++ skipn (Z.to_nat len) (data8 []))].
Proof.
  intros Hn Hl Hd. unfold coTPDO.
  rewrite assert_holds by (apply in_range_b; lia).
  rewrite assert_holds by (apply in_range_b; lia).
  unfold memcpy.
  replace ((0 <=? len) && (len <=? Z.of_nat (length data))
           && (len <=? Z.of_nat (length (data8 [])))) with true.
  - unfold call. cbn [tx bus_co]. unfold bus_tx.
    destruct (tx_status b); reflexivity.
  - symmetry. change (Z.of_nat (length (data8 []))) with 8.
    repeat (apply andb_true_intro; split); apply Z.leb_le; lia.
Qed.

End BusLog.

(** ** Encoders *)

(** C8.  For every node 1-127 the frame handed to [tx] by each per-node
    encoder, [coTPDO] (identifier 0x200 + node), [coSDOWrite] and
    [coSDORead] (identifier 0x600 + node), is one whose node id
    ([getNodeId], the low seven identifier bits) is the node passed to the
    encoder and whose COB-ID type ([getCOBIDType], the top four bits) is the
    service class of that encoder. *)
Theorem encoders_node_roundtrip :
  forall (c : Z) (b : bus) (fuel : nat) (nodeId : Z)
         (pdo : list Z) (pdo_len index subIndex value size : Z),
    1 <= nodeId <= 127 ->
    1 <= pdo_len <= 8 -> pdo_len <= Z.of_nat (length pdo) ->
    1 <= size <= 4 ->
    (exists m,
        tx_log (snd (coTPDO (bus_co c) nodeId pdo pdo_len b)) = tx_log b ++ [m]
        /\ cobId m = 0x200 + nodeId
        /\ getNodeId m = nodeId /\ getCOBIDType m = COB_ID_RPDO1) /\
    (exists m,
        tx_log (snd (coSDOWrite (bus_co c) fuel nodeId index subIndex value size b))
        = tx_log b ++ [m]
        /\ cobId m = 0x600 + nodeId
        /\ getNodeId m = nodeId /\ getCOBIDType m = COB_ID_RSDO) /\
    (exists m,
        tx_log (snd (coSDORead (bus_co c) fuel nodeId index subIndex value size b))
        = tx_log b ++ [m]
        /\ cobId m = 0x600 + nodeId
        /\ getNodeId m = nodeId /\ getCOBIDType m = COB_ID_RSDO).
Proof.
  intros c b fuel nodeId pdo pdo_len index subIndex value size Hn Hp Hpd Hs.
  split; [| split].
  - eexists. split; [now apply coTPDO_log |].
    change (COB_ID_RPDO1 + nodeId) with (128 * 4 + nodeId).
    destruct (classify_base_node 4 nodeId (to_u8 pdo_len)
                (firstn (Z.to_nat pdo_len) pdo
                 ++ skipn (Z.to_nat pdo_len) (data8 [])))
      as (Ht & Hi & Hc); try lia.
    rewrite Ht, Hi, Hc. repeat split; reflexivity.
  - eexists. split; [now apply coSDOWrite_log |].
    unfold sdoWriteRequest.
    change (COB_ID_RSDO + nodeId) with (128 * 12 + nodeId).
    match goal with
    | |- context [mkMsg _ ?l ?d] =>
        destruct (classify_base_node 12 nodeId l d) as (Ht & Hi & Hc); try lia
    end.
    cbv zeta. rewrite Ht, Hi, Hc. repeat split; reflexivity.
  - eexists. split; [now apply coSDORead_log |].
    unfold sdoReadRequest.
    change (COB_ID_RSDO + nodeId) with (128 * 12 + nodeId).
    match goal with
    | |- context [mkMsg _ ?l ?d] =>
        destruct (classify_base_node 12 nodeId l d) as (Ht & Hi & Hc); try lia
    end.
    rewrite Ht, Hi, Hc. repeat split; reflexivity.
Qed.

(** Node 5: a two byte PDO and a two byte write and read of 0x1A00.1. *)
Lemma encoders_node_roundtrip_node5 :
  (1 <= 5 <= 127 /\ 1 <= 2 <= 8 /\ 2 <= Z.of_nat (length [0x11; 0x22]) /\
   1 <= 2 <= 4) /\
  (exists m,
      tx_log (snd (coTPDO (bus_co 0) 5 [0x11; 0x22] 2 (idle_bus [] [])))
      = tx_log (idle_bus [] []) ++ [m]
      /\ cobId m = 0x200 + 5
      /\ getNodeId m = 5 /\ getCOBIDType m = COB_ID_RPDO1) /\
  (exists m,
      tx_log (snd (coSDOWrite (bus_co 0) 1 5 0x1A00 1 0xBEEF 2 (idle_bus [] [])))
      = tx_log (idle_bus [] []) ++ [m]
      /\ cobId m = 0x600 + 5
      /\ getNodeId m = 5 /\ getCOBIDType m = COB_ID_RSDO) /\
  (exists m,
      tx_log (snd (coSDORead (bus_co 0) 1 5 0x1A00 1 0xBEEF 2 (idle_bus [] [])))
      = tx_log (idle_bus [] []) ++ [m]
      /\ cobId m = 0x600 + 5
      /\ getNodeId m = 5 /\ getCOBIDType m = COB_ID_RSDO).
Proof.
  split.
  - cbn [length]. lia.
  - apply (encoders_node_roundtrip 0 (idle_bus [] []) 1 5 [0x11; 0x22] 2
             0x1A00 1 0xBEEF 2); cbn [length]; lia.
Defined.

(** C4.  For every node 1-127, index, subindex, value and byte length 1-4,
    the request handed to [tx] by [coSDOWrite] has identifier 0x600 + node
    and an 8 byte payload: the command specifier 0x23 | ((4 - len) << 2),
    the index low then high byte, the subindex, and the value little-endian
    with the bytes at positions beyond the length set to zero. *)
Theorem coSDOWrite_request_layout :
  forall (c : Z) (b : bus) (fuel : nat) (nodeId index subIndex value size : Z),
    1 <= nodeId <= 127 ->
    is_u16 index -> is_u8 subIndex -> is_u32 value ->
    1 <= size <= 4 ->
    tx_log (snd (coSDOWrite (bus_co c) fuel nodeId index subIndex value size b))
    = tx_log b ++
      [mkMsg (0x600 + nodeId) 8
         ([Z.lor 0x23 (Z.shiftl (4 - size) 2);
           index mod 256; index / 256;
           subIndex]
          ++ map (fun i => if i <? size then (value / 256 ^ i) mod 256 else 0)
                 [0; 1; 2; 3])].
Proof.
  intros c b fuel nodeId index subIndex value size Hn Hi Hs Hv Hl.
  unfold is_u16, is_u8, is_u32 in *.
  rewrite coSDOWrite_log by lia. f_equal. f_equal.
  unfold sdoWriteRequest. cbv zeta.
  cbn [data8 firstn app repeat map].
  change COB_ID_RSDO with 0x600.
  rewrite to_u16_small by lia.
  rewrite (to_u8_small subIndex) by lia.
  rewrite !land_0xff, !Z.shiftr_div_pow2 by lia.
  change (2 ^ 8) with 256. change (256 ^ 1) with 256.
  change (256 ^ 2) with (2 ^ 16). change (256 ^ 3) with (2 ^ 24).
  change (256 ^ 0) with 1. rewrite Z.div_1_r.
  rewrite (Z.mod_small (index / 256)) by
    (split; [apply Z.div_pos; lia | apply Z.div_lt_upper_bound; lia]).
  replace (0 <? size) with true by (symmetry; apply Z.ltb_lt; lia).
  assert (Hcs : to_u8 (Z.lor 35 (to_u8 (Z.shiftl (4 - size) 2)))
                = Z.lor 35 (Z.shiftl (4 - size) 2)).
  { assert (Hc : size = 1 \/ size = 2 \/ size = 3 \/ size = 4) by lia.
    destruct Hc as [-> | [-> | [-> | ->]]]; reflexivity. }
  rewrite Hcs. reflexivity.
Qed.

(** Writing the two byte value 0xBEEF to 0x1A00.1 of node 5. *)
Lemma coSDOWrite_request_layout_u16 :
  (1 <= 5 <= 127 /\ is_u16 0x1A00 /\ is_u8 1 /\ is_u32 0xBEEF /\ 1 <= 2 <= 4) /\
  tx_log (snd (coSDOWrite (bus_co 0) 1 5 0x1A00 1 0xBEEF 2 (idle_bus [] [])))
  = [mkMsg 0x605 8 [0x2B; 0x00; 0x1A; 0x01; 0xEF; 0xBE; 0x00; 0x00]].
Proof.
  split.
  - unfold is_u16, is_u8, is_u32. lia.
  - apply (coSDOWrite_request_layout 0 (idle_bus [] []) 1 5 0x1A00 1 0xBEEF 2);
      unfold is_u16, is_u8, is_u32; lia.
Defined.

(** ** SYNC counter *)

(** [n] SYNCs with the counter feature, from counter value [c]: the frames
    carry [c], [c + 1], ... modulo 256. *)
Lemma sync_cycles_log (n : nat) :
  forall (c : Z) (b : bus),
    0 <= c < 256 ->
    tx_log (snd (sync_cycles true n (bus_co c) b))
    = tx_log b
      ++ map (fun k => sync_frame ((c + Z.of_nat k) mod 256)) (seq 0 n).
Proof.
  induction n as [| n IH]; intros c b Hc.
  - cbn. now rewrite app_nil_r.
  - cbn [sync_cycles]. unfold bind at 1. unfold coSYNC.
    change (set_syncCounter (bus_co c) (to_u8 (syncCounter (bus_co c) + 1)))
      with (bus_co (to_u8 (c + 1))).
    unfold bind at 1, call at 1, ret at 1. cbn [tx bus_co syncCounter].
    assert (Hb : tx_log (snd (bus_tx (mkMsg COB_ID_SYNC 1 (data8 [c])) b))
                 = tx_log b ++ [sync_frame c]).
    { unfold bus_tx. destruct (tx_status b); reflexivity. }
    destruct (bus_tx (mkMsg COB_ID_SYNC 1 (data8 [c])) b) as [r b1].
    cbn [snd] in Hb. unfold bind.
    assert (Hc1 : 0 <= to_u8 (c + 1) < 256)
      by (unfold to_u8; apply Z.mod_pos_bound; lia).
    specialize (IH (to_u8 (c + 1)) b1 Hc1).
    destruct (sync_cycles true n (bus_co (to_u8 (c + 1))) b1)
      as [[[statuses co'] | f] b2]; unfold ret; cbn [snd] in IH |- *;
      rewrite IH, Hb, <- app_assoc; cbn [app seq map];
      rewrite Z.add_0_r, (Z.mod_small c) by lia;
      f_equal; f_equal; rewrite <- seq_shift, map_map;
      apply map_ext; intros k; f_equal;
      unfold to_u8; change (2 ^ 8) with 256;
      rewrite Nat2Z.inj_succ, Zplus_mod_idemp_l; f_equal; lia.
Qed.

(** C9.  With the counter feature enabled, after [coSYNCResetCounter] the
    first frame sent by [coSYNC] has a 1 byte payload holding 1, and every
    further [coSYNC] sends a value larger by exactly 1, modulo 256: the [k]th
    frame (from 0) holds (1 + k) mod 256. *)
Theorem coSYNC_counter_sequence :
  forall (n : nat) (c : Z) (b : bus),
    tx_log (snd ((r <- coSYNCResetCounter (bus_co c) ;;
                  sync_cycles true n (snd r)) b))
    = tx_log b
      ++ map (fun k => mkMsg 0x080 1 [(1 + Z.of_nat k) mod 256; 0; 0; 0; 0; 0; 0; 0])
             (seq 0 n).
Proof.
  intros n c b. unfold bind, coSYNCResetCounter, ret. cbn [snd].
  change (set_syncCounter (bus_co c) 1) with (bus_co 1).
  pose proof (sync_cycles_log n 1 b ltac:(lia)) as H.
  destruct (sync_cycles true n (bus_co 1) b) as [[a | f] b1]; exact H.
Qed.

(** ** Cyclic reception *)

(** C7.  When [coRPDO] receives a frame of emergency class it hands the
    emergency sink the node id from the low 7 identifier bits, the 16 bit
    little-endian error code of payload bytes 0-1, the error register of
    byte 2 and bytes 3-7 as the manufacturer field, and returns 1, "no
    process data", with the caller's buffer and length as they were. *)
Theorem coRPDO_emergency :
  forall (W : Type) (co : co_t W) (msg0 : co_msg_t) (nodeId : Z)
         (buf : list Z) (size : Z) (w w1 : W)
         (id l b0 b1 b2 b3 b4 b5 b6 b7 : Z),
    1 <= nodeId <= 127 ->
    rx co msg0 w = ((0, mkMsg id l [b0; b1; b2; b3; b4; b5; b6; b7]), w1) ->
    is_u8 b0 -> is_u8 b1 ->
    getCOBIDType (mkMsg id l [b0; b1; b2; b3; b4; b5; b6; b7]) = COB_ID_EMCY ->
    coRPDO co msg0 nodeId buf size w =
    (Ret (1, buf, size),
     snd (emcy co (id mod 128) (b0 + 256 * b1) b2 [b3; b4; b5; b6; b7] w1)).
Proof.
  intros W co msg0 nodeId buf size w w1 id l b0 b1 b2 b3 b4 b5 b6 b7
         Hn Hrx H0 H1 Hty.
  unfold is_u8 in *. unfold coRPDO.
  rewrite assert_holds by (apply in_range_b; lia).
  unfold bind at 1, call at 1. rewrite Hrx. cbn [negb Z.eqb].
  rewrite Hty. cbn [Z.eqb COB_ID_EMCY Pos.eqb].
  unfold getNodeId, byte_at. cbn [cobId data nth skipn].
  rewrite land_0x7f.
  rewrite (to_u8_small (id mod 128))
    by (pose proof (Z.mod_pos_bound id 128); lia).
  rewrite lor_shiftl_add by lia. change (2 ^ 8) with 256.
  rewrite to_u32_small, to_u16_small by lia.
  rewrite (Z.mul_comm b1 256).
  unfold bind, call, ret.
  destruct (emcy co (id mod 128) (b0 + 256 * b1) b2 [b3; b4; b5; b6; b7] w1)
    as [[] w2].
  reflexivity.
Qed.

(** The frame with identifier 0x087 and payload [0x10, 0x20, 0x05, 1, 2, 3,
    4, 5] is delivered as node 7, error code 0x2010, error register 5,
    manufacturer field [1, 2, 3, 4, 5]. *)
Lemma coRPDO_emergency_node7 :
  let frame := mkMsg 0x087 8 [0x10; 0x20; 0x05; 1; 2; 3; 4; 5] in
  let b := idle_bus [(0, Some frame)] [] in
  (1 <= 3 <= 127 /\
   bus_rx (mkMsg 0 0 []) b = ((0, frame), idle_bus [] []) /\
   is_u8 0x10 /\ is_u8 0x20 /\ getCOBIDType frame = COB_ID_EMCY) /\
  coRPDO (bus_co 0) (mkMsg 0 0 []) 3 [9; 9; 9; 9; 9; 9; 9; 9] 0 b =
  (Ret (1, [9; 9; 9; 9; 9; 9; 9; 9], 0),
   mkBus [] [] [] [] [mkEmcy 7 0x2010 5 [1; 2; 3; 4; 5]]).
Proof.
  cbv zeta. split.
  - unfold is_u8. repeat split; lia.
  - apply (coRPDO_emergency bus (bus_co 0) (mkMsg 0 0 []) 3
             [9; 9; 9; 9; 9; 9; 9; 9] 0
             (idle_bus [(0, Some (mkMsg 0x087 8 [0x10; 0x20; 0x05; 1; 2; 3; 4; 5]))] [])
             (idle_bus [] [])
             0x087 8 0x10 0x20 0x05 1 2 3 4 5);
      unfold is_u8; try lia; reflexivity.
Defined.

(** ** Outputs are written on success only *)

Section Frame.

Context {W : Type} (co : co_t W).

Lemma sdoRead_loop_frame (nodeId index subIndex start nField data size : Z)
    (fuel : nat) :
  forall (msg : co_msg_t) (w w' : W) (r d' : Z),
    sdoRead_loop co nodeId index subIndex start nField data size fuel msg w
    = (Ret (r, d'), w') ->
    r = 0 \/ d' = data.
Proof.
  induction fuel as [| fuel IH]; intros msg w w' r d' Hrun; [discriminate |].
  cbn [sdoRead_loop] in Hrun. unfold bind at 1, call at 1 in Hrun.
  destruct (rx co msg w) as [[s m] w1].
  destruct (s =? -1); [inversion Hrun; now right |].
  destruct (isSDOReadResponse nodeId index subIndex nField m).
  - destruct (_ || _); inversion Hrun; [now left | now right].
  - unfold bind in Hrun.
    destruct (haveTimeout co start CO_TIMEOUT_SDO w1) as [[t | f] w2];
      [| discriminate].
    destruct (negb (t =? 0)); [inversion Hrun; now right |].
    now apply IH in Hrun.
Qed.

Lemma coSDORead_frame (fuel : nat) (nodeId index subIndex data size : Z)
    (w w' : W) (r d' : Z) :
  coSDORead co fuel nodeId index subIndex data size w = (Ret (r, d'), w') ->
  r = 0 \/ d' = data.
Proof.
  unfold coSDORead, bind, assert, call. intros Hrun.
  destruct ((0 <? nodeId) && (nodeId <=? 127)); [| discriminate].
  destruct ((0 <? size) && (size <=? 4)); [| discriminate].
  destruct (tx co _ w) as [s w1].
  destruct (negb (0 =? s)); [inversion Hrun; now right |].
  destruct (ms co w1) as [start w2].
  now apply sdoRead_loop_frame in Hrun.
Qed.

Lemma coRPDO_frame (msg0 : co_msg_t) (nodeId : Z) (data : list Z) (size : Z)
    (w w' : W) (r : Z) (data' : list Z) (size' : Z) :
  coRPDO co msg0 nodeId data size w = (Ret (r, data', size'), w') ->
  r = 0 \/ (data' = data /\ size' = size).
Proof.
  unfold coRPDO, bind, assert, call, ret. intros Hrun.
  destruct ((0 <? nodeId) && (nodeId <=? 127)); [| discriminate].
  destruct (rx co msg0 w) as [[s m] w1].
  destruct (negb (0 =? s)); [inversion Hrun; now right |].
  destruct (COB_ID_EMCY =? getCOBIDType m).
  - destruct (emcy co _ _ _ _ w1) as [[] w2]. inversion Hrun. now right.
  - destruct ((COB_ID_TPDO1 =? getCOBIDType m) && (nodeId =? getNodeId m)).
    + destruct m as [id l d]. destruct (memcpy data d l); [| discriminate].
      inversion Hrun. now left.
    + inversion Hrun. now right.
Qed.

End Frame.

(** C10.  Whenever [coSDORead] returns anything but success (0), after a
    transport error, a timeout or an abort, the value behind [data] is what
    it was on entry; and whenever [coRPDO] returns anything but 0, "process
    data received", so on "no usable frame" (1), on an error (-1) and on the
    delivery of an emergency, the caller's buffer and length are what they
    were on entry. *)
Theorem outputs_written_on_success_only :
  forall (W : Type) (co : co_t W) (fuel : nat)
         (nodeId index subIndex value size : Z) (w w' : W) (r value' : Z)
         (msg0 : co_msg_t) (pdoNode : Z) (buf : list Z) (buf_len : Z)
         (v v' : W) (r2 : Z) (buf' : list Z) (buf_len' : Z),
    coSDORead co fuel nodeId index subIndex value size w = (Ret (r, value'), w') ->
    coRPDO co msg0 pdoNode buf buf_len v = (Ret (r2, buf', buf_len'), v') ->
    (r = 0 \/ value' = value) /\
    (r2 = 0 \/ (buf' = buf /\ buf_len' = buf_len)).
Proof.
  intros W co fuel nodeId index subIndex value size w w' r value'
         msg0 pdoNode buf buf_len v v' r2 buf' buf_len' Hread Hpdo.
  split.
  - exact (coSDORead_frame co fuel nodeId index subIndex value size w w' r value' Hread).
  - exact (coRPDO_frame co msg0 pdoNode buf buf_len v v' r2 buf' buf_len' Hpdo).
Qed.

(** A read of 0x1018.1 that times out with no answer, and a cyclic reception
    that finds an emergency frame: 77 and the buffer of nines stay. *)
Lemma outputs_written_on_success_only_runs :
  let quiet := idle_bus [(1, None)] [0; 1000] in
  let alarm := idle_bus [(0, Some (mkMsg 0x087 8 [0x10; 0x20; 0x05; 1; 2; 3; 4; 5]))] [] in
  (coSDORead (bus_co 0) 2 1 0x1018 1 77 4 quiet
   = (Ret (0xFFFFFFFF, 77),
      mkBus [] [] [] [sdoReadRequest 1 0x1018 1] []) /\
   coRPDO (bus_co 0) (mkMsg 0 0 []) 3 [9; 9; 9; 9; 9; 9; 9; 9] 0 alarm
   = (Ret (1, [9; 9; 9; 9; 9; 9; 9; 9], 0),
      mkBus [] [] [] [] [mkEmcy 7 0x2010 5 [1; 2; 3; 4; 5]])) /\
  ((0xFFFFFFFF = 0 \/ 77 = 77) /\
   (1 = 0 \/ ([9; 9; 9; 9; 9; 9; 9; 9] = [9; 9; 9; 9; 9; 9; 9; 9] /\ 0 = 0))).
Proof.
  cbv zeta. split.
  - split; reflexivity.
  - apply (outputs_written_on_success_only bus (bus_co 0) 2 1 0x1018 1 77 4
             (idle_bus [(1, None)] [0; 1000])
             (mkBus [] [] [] [sdoReadRequest 1 0x1018 1] [])
             0xFFFFFFFF 77
             (mkMsg 0 0 []) 3 [9; 9; 9; 9; 9; 9; 9; 9] 0
             (idle_bus [(0, Some (mkMsg 0x087 8 [0x10; 0x20; 0x05; 1; 2; 3; 4; 5]))] [])
             (mkBus [] [] [] [] [mkEmcy 7 0x2010 5 [1; 2; 3; 4; 5]])
             1 [9; 9; 9; 9; 9; 9; 9; 9] 0);
      reflexivity.
Defined.

(** ** The polling loops on the scripted bus *)

Section Polling.

Variable c : Z.

(** A reading before the bound: no timeout. *)
Lemma haveTimeout_pending (start bound t : Z) rxs ts txs log el :
  bound < 2 ^ 31 - 1 -> elapsed start t < bound ->
  haveTimeout (bus_co c) start bound (mkBus rxs (t :: ts) txs log el)
  = (Ret 0, mkBus rxs ts txs log el).
Proof.
  intros Hb He.
  rewrite (haveTimeout_run (bus_co c) start bound t _ (mkBus rxs ts txs log el))
    by (reflexivity || assumption).
  destruct (Z.leb_spec (elapsed start t) (2 ^ 31)); [| lia].
  destruct (Z.leb_spec bound (elapsed start t)); [lia | reflexivity].
Qed.

(** A reading at or after the bound: timeout. *)
Lemma haveTimeout_expired (start bound t : Z) rxs ts txs log el :
  bound < 2 ^ 31 - 1 -> bound <= elapsed start t <= 2 ^ 31 ->
  haveTimeout (bus_co c) start bound (mkBus rxs (t :: ts) txs log el)
  = (Ret (-1), mkBus rxs ts txs log el).
Proof.
  intros Hb He.
  rewrite (haveTimeout_run (bus_co c) start bound t _ (mkBus rxs ts txs log el))
    by (reflexivity || assumption).
  destruct (Z.leb_spec (elapsed start t) (2 ^ 31)); [| lia].
  destruct (Z.leb_spec bound (elapsed start t)); [reflexivity | lia].
Qed.

(** Received frames that are not the boot-up looked for are passed over as
    long as the clock stays within the bound. *)
Lemma waitBoot_loop_skip (nodeId start : Z) (pre : list co_msg_t) :
  forall (ts : list Z) (msg : co_msg_t) (fuel : nat) rest more txs log el,
    length ts = length pre ->
    Forall (fun f => isBootUp nodeId f = false) pre ->
    Forall (fun t => elapsed start t < CO_TIMEOUT_NMT) ts ->
    waitBoot_loop (bus_co c) nodeId start (length pre + fuel) msg
      (mkBus (received pre ++ rest) (ts ++ more) txs log el)
    = waitBoot_loop (bus_co c) nodeId start fuel (buffer_after pre msg)
        (mkBus rest more txs log el).
Proof.
  induction pre as [| f pre IH]; intros ts msg fuel rest more txs log el Hlen Hpre Hts.
  - destruct ts; [reflexivity | discriminate].
  - destruct ts as [| t ts]; [discriminate |].
    inversion Hpre as [| ? ? Hf Hpre']; subst.
    inversion Hts as [| ? ? Ht Hts']; subst.
    cbn [length Nat.add waitBoot_loop received map app].
    unfold bind at 1, call at 1. cbn [rx bus_co bus_rx rx_pending clock
      tx_status tx_log emcy_log Z.eqb].
    rewrite Hf. unfold bind.
    rewrite haveTimeout_pending by (assumption || (cbv; reflexivity)).
    cbn [Z.eqb negb]. apply IH; [now inversion Hlen | assumption | assumption].
Qed.


Lemma sdoRead_loop_skip (nodeId index subIndex start nField data size : Z)
    (pre : list co_msg_t) :
  forall (ts : list Z) (msg : co_msg_t) (fuel : nat) rest more txs log el,
    length ts = length pre ->
    Forall (fun f => isSDOReadResponse nodeId index subIndex nField f = false) pre ->
    Forall (fun t => elapsed start t < CO_TIMEOUT_SDO) ts ->
    sdoRead_loop (bus_co c) nodeId index subIndex start nField data size
      (length pre + fuel) msg
      (mkBus (received pre ++ rest) (ts ++ more) txs log el)
    = sdoRead_loop (bus_co c) nodeId index subIndex start nField data size fuel
        (buffer_after pre msg) (mkBus rest more txs log el).
Proof.
  induction pre as [| f pre IH]; intros ts msg fuel rest more txs log el Hlen Hpre Hts.
  - destruct ts; [reflexivity | discriminate].
  - destruct ts as [| t ts]; [discriminate |].
    inversion Hpre as [| ? ? Hf Hpre']; subst.
    inversion Hts as [| ? ? Ht Hts']; subst.
    cbn [length Nat.add sdoRead_loop received map app].
    unfold bind at 1, call at 1. cbn [rx bus_co bus_rx rx_pending clock
      tx_status tx_log emcy_log Z.eqb].
    rewrite Hf. unfold bind.
    rewrite haveTimeout_pending by (assumption || (cbv; reflexivity)).
    cbn [Z.eqb negb]. apply IH; [now inversion Hlen | assumption | assumption].
Qed.

End Polling.

(** The status nibble tested by the [switch] of the SDO calls. *)
Lemma status_nibble (b k : Z) :
  is_u8 b -> 0 <= k < 16 ->
  (Z.land b 0xf0 =? 16 * k) = (b / 16 =? k).
Proof.
  intros Hb Hk. unfold is_u8 in Hb.
  pose proof (range_forallb 16
    (fun k => forallb (fun b => Bool.eqb (Z.land b 0xf0 =? 16 * k) (b / 16 =? k))
                (map Z.of_nat (seq 0 256)))) as H.
  specialize (H ltac:(now vm_compute) k ltac:(lia)). cbv beta in H.
  apply Bool.eqb_prop.
  apply (range_forallb 256
           (fun b => Bool.eqb (Z.land b 0xf0 =? 16 * k) (b / 16 =? k)) H).
  change (Z.of_nat 256) with (2 ^ 8). lia.
Qed.

(** ** Configuration write *)



(** ** Boot-up wait *)

(** The boot-up test on a frame with an eleven bit identifier. *)
Lemma isBootUp_iff (nodeId : Z) (f : co_msg_t) :
  1 <= nodeId <= 127 -> 0 <= cobId f < 2 ^ 11 ->
  isBootUp nodeId f = true <->
  cobId f = 0x700 + nodeId /\ len f = 1 /\ byte_at f 0 = 0.
Proof.
  intros Hn Hid. unfold isBootUp, getCOBIDType, getNodeId.
  rewrite !andb_true_iff, !Z.eqb_eq.
  rewrite land_0x7f.
  rewrite (to_u8_small (cobId f mod 128))
    by (pose proof (Z.mod_pos_bound (cobId f) 128); lia).
  split.
  - intros [[[Hty Hnode] Hlen] Hb].
    pose proof (cobId_split (cobId f) Hid) as Hsplit.
    rewrite land_0x7f in Hsplit. unfold COB_ID_HRTB in Hty.
    repeat split; lia.
  - intros (Hc & Hlen & Hb). rewrite Hc.
    change (0x700 + nodeId) with (128 * 14 + nodeId).
    rewrite land_0x780_base by lia.
    rewrite Z.add_comm, Z.mul_comm, Z.mod_add, Z.mod_small by lia.
    unfold COB_ID_HRTB. repeat split; lia.
Qed.

(** The boot-up wait when every poll is a reception.  The frame test is
    passed exactly by the heartbeat frames of the target node (identifier
    0x700 + node) with payload length 1 and payload byte 0.  Received frames
    that are not such a frame are passed over while the clock is within the
    bound; the first such frame ends the call with success (0); and when a
    frame that is not such a frame is what is received at the first reading
    of the clock at the bound, the call returns -1, timeout.  Polls without
    data are not covered here: see [coNMTWaitBoot_stale_boot_up]. *)
Theorem coNMTWaitBoot_accepts :
  forall (c : Z) (fuel : nat) (msg0 : co_msg_t) (nodeId : Z)
         (pre : list co_msg_t) (boot other f : co_msg_t)
         (t0 : Z) (ts : list Z) (t : Z) rest more txs log el,
    1 <= nodeId <= 127 ->
    Forall (fun g => isBootUp nodeId g = false) pre ->
    length ts = length pre ->
    Forall (fun u => elapsed t0 u < CO_TIMEOUT_NMT) ts ->
    isBootUp nodeId boot = true ->
    isBootUp nodeId other = false ->
    CO_TIMEOUT_NMT <= elapsed t0 t <= 2 ^ 31 ->
    0 <= cobId f < 2 ^ 11 ->
    (length pre < fuel)%nat ->
    coNMTWaitBoot (bus_co c) fuel msg0 nodeId
      (mkBus (received pre ++ (0, Some boot) :: rest) (t0 :: ts ++ more) txs log el)
    = (Ret 0, mkBus rest more txs log el)
    /\
    coNMTWaitBoot (bus_co c) fuel msg0 nodeId
      (mkBus (received pre ++ (0, Some other) :: rest) (t0 :: ts ++ t :: more)
         txs log el)
    = (Ret (-1), mkBus rest more txs log el)
    /\
    (isBootUp nodeId f = true <->
     cobId f = 0x700 + nodeId /\ len f = 1 /\ byte_at f 0 = 0).
Proof.
  intros c fuel msg0 nodeId pre boot other f t0 ts t rest more txs log el
         Hn Hpre Hlen Hts Hboot Hother Ht Hf Hfuel.
  split; [| split].
  - unfold coNMTWaitBoot.
    rewrite assert_holds by (apply in_range_b; lia).
    unfold bind at 1, call at 1. cbn [ms bus_co bus_ms clock rx_pending
      tx_status tx_log emcy_log].
    replace fuel with (length pre + S (fuel - S (length pre)))%nat by lia.
    rewrite waitBoot_loop_skip by assumption.
    cbn [waitBoot_loop]. unfold bind at 1, call at 1.
    cbn [rx bus_co bus_rx rx_pending clock tx_status tx_log emcy_log Z.eqb].
    rewrite Hboot. reflexivity.
  - unfold coNMTWaitBoot.
    rewrite assert_holds by (apply in_range_b; lia).
    unfold bind at 1, call at 1. cbn [ms bus_co bus_ms clock rx_pending
      tx_status tx_log emcy_log].
    replace fuel with (length pre + S (fuel - S (length pre)))%nat by lia.
    rewrite waitBoot_loop_skip by assumption.
    cbn [waitBoot_loop]. unfold bind at 1, call at 1.
    cbn [rx bus_co bus_rx rx_pending clock tx_status tx_log emcy_log Z.eqb].
    rewrite Hother. unfold bind.
    rewrite haveTimeout_expired by (assumption || (cbv; reflexivity)).
    reflexivity.
  - now apply isBootUp_iff.
Qed.

(** Waiting for node 5: a SYNC and the heartbeat of node 6 go by; then the
    boot-up of node 5 gives success, and an operational heartbeat of node 5
    with the clock at the bound gives timeout. *)
Lemma coNMTWaitBoot_accepts_node5 :
  let pre := [mkMsg 0x080 0 [0; 0; 0; 0; 0; 0; 0; 0];
              mkMsg 0x706 1 [0; 0; 0; 0; 0; 0; 0; 0]] in
  let boot := mkMsg 0x705 1 [0; 0; 0; 0; 0; 0; 0; 0] in
  let other := mkMsg 0x705 1 [5; 0; 0; 0; 0; 0; 0; 0] in
  (1 <= 5 <= 127 /\
   Forall (fun g => isBootUp 5 g = false) pre /\
   length [100; 2000] = length pre /\
   Forall (fun u => elapsed 0xFFFFFFF0 u < CO_TIMEOUT_NMT) [100; 2000] /\
   isBootUp 5 boot = true /\ isBootUp 5 other = false /\
   CO_TIMEOUT_NMT <= elapsed 0xFFFFFFF0 2984 <= 2 ^ 31 /\
   0 <= cobId boot < 2 ^ 11 /\ (length pre < 3)%nat) /\
  coNMTWaitBoot (bus_co 0) 3 (mkMsg 0 0 []) 5
    (mkBus (received pre ++ (0, Some boot) :: []) (0xFFFFFFF0 :: [100; 2000] ++ [])
       [] [] [])
  = (Ret 0, mkBus [] [] [] [] []) /\
  coNMTWaitBoot (bus_co 0) 3 (mkMsg 0 0 []) 5
    (mkBus (received pre ++ (0, Some other) :: [])
       (0xFFFFFFF0 :: [100; 2000] ++ 2984 :: []) [] [] [])
  = (Ret (-1), mkBus [] [] [] [] []) /\
  (isBootUp 5 boot = true <->
   cobId boot = 0x700 + 5 /\ len boot = 1 /\ byte_at boot 0 = 0).
Proof.
  cbv zeta. split.
  - repeat split; try lia; try reflexivity;
      repeat constructor; cbv; congruence.
  - apply (coNMTWaitBoot_accepts 0 3 (mkMsg 0 0 []) 5
             [mkMsg 0x080 0 [0; 0; 0; 0; 0; 0; 0; 0];
              mkMsg 0x706 1 [0; 0; 0; 0; 0; 0; 0; 0]]
             (mkMsg 0x705 1 [0; 0; 0; 0; 0; 0; 0; 0])
             (mkMsg 0x705 1 [5; 0; 0; 0; 0; 0; 0; 0])
             (mkMsg 0x705 1 [0; 0; 0; 0; 0; 0; 0; 0])
             0xFFFFFFF0 [100; 2000] 2984 [] [] [] [] []);
      try lia; try reflexivity;
      repeat constructor; cbv; congruence.
Defined.

(** C6 (the code departs from it).  [coNMTWaitBoot] does not accept the
    boot-up frames of the node only.  Its frame buffer is not initialised,
    and the frame test is run at every poll that is not a receive error:
    when the buffer holds a boot-up frame of the node on entry, as an
    earlier call for the node leaves it there, and the first poll reports
    anything but an error without writing the buffer, "no data" above all,
    the call returns success (0) at that poll, with no frame received and
    whatever the clock reads, where a timeout is due. *)
Theorem coNMTWaitBoot_stale_boot_up :
  forall (W : Type) (co : co_t W) (fuel : nat) (msg0 : co_msg_t)
         (nodeId start s : Z) (w w0 w1 : W),
    1 <= nodeId <= 127 ->
    ms co w = (start, w0) ->
    rx co msg0 w0 = ((s, msg0), w1) ->
    s <> -1 ->
    isBootUp nodeId msg0 = true ->
    coNMTWaitBoot co (S fuel) msg0 nodeId w = (Ret 0, w1).
Proof.
  intros W co fuel msg0 nodeId start s w w0 w1 Hn Hms Hrx Hs Hboot.
  unfold coNMTWaitBoot.
  rewrite assert_holds by (apply in_range_b; lia).
  unfold bind at 1, call at 1. rewrite Hms.
  cbn [waitBoot_loop]. unfold bind, call. rewrite Hrx.
  replace (s =? -1) with false by (symmetry; now apply Z.eqb_neq).
  now rewrite Hboot.
Qed.

(** Waiting for node 5 on a silent bus, polled at 1000, 2000 and 3000 ms,
    with the boot-up frame of node 5 left in the buffer: success at the
    first poll, the other polls and the clock readings are not even used.
    No frame arrives, so a timeout at the 3000 ms reading is what is due. *)
Lemma coNMTWaitBoot_stale_boot_up_silence :
  let stale := mkMsg 0x705 1 [0; 0; 0; 0; 0; 0; 0; 0] in
  (1 <= 5 <= 127 /\
   bus_ms (idle_bus [(1, None); (1, None); (1, None)] [0; 1000; 2000; 3000])
   = (0, idle_bus [(1, None); (1, None); (1, None)] [1000; 2000; 3000]) /\
   bus_rx stale (idle_bus [(1, None); (1, None); (1, None)] [1000; 2000; 3000])
   = ((1, stale), idle_bus [(1, None); (1, None)] [1000; 2000; 3000]) /\
   1 <> -1 /\ isBootUp 5 stale = true) /\
  coNMTWaitBoot (bus_co 0) 4 stale 5
    (idle_bus [(1, None); (1, None); (1, None)] [0; 1000; 2000; 3000])
  = (Ret 0, idle_bus [(1, None); (1, None)] [1000; 2000; 3000]).
Proof.
  cbv zeta. split.
  - repeat split; try lia; reflexivity.
  - apply (coNMTWaitBoot_stale_boot_up bus (bus_co 0) 3
             (mkMsg 0x705 1 [0; 0; 0; 0; 0; 0; 0; 0]) 5 0 1
             (idle_bus [(1, None); (1, None); (1, None)] [0; 1000; 2000; 3000])
             (idle_bus [(1, None); (1, None); (1, None)] [1000; 2000; 3000])
             (idle_bus [(1, None); (1, None)] [1000; 2000; 3000]));
      try lia; reflexivity.
Defined.

(** ** Poll iterations without data *)

(** C2 (the code departs from it).  In each of the three blocking calls a
    poll iteration in which [rx] reports "no data" (1) still runs the frame
    test on the buffer: when the buffer then holds a frame that passes the
    test, be it stale or written by a driver that reports no data, the call
    returns success at that iteration, and [coSDORead] stores a value taken
    from that buffer. *)
Theorem no_data_is_matched :
  forall (W : Type) (co : co_t W) (fuel : nat)
         (nodeId index subIndex value size : Z)
         (msg0 mb mw mr : co_msg_t)
         (startb startw startr : Z)
         (wb wb0 wb1 ww ww0 ww1 ww2 wr wr0 wr1 wr2 : W),
    1 <= nodeId <= 127 -> 1 <= size <= 4 ->
    ms co wb = (startb, wb0) ->
    rx co msg0 wb0 = ((1, mb), wb1) ->
    isBootUp nodeId mb = true ->
    tx co (sdoWriteRequest nodeId index subIndex value size) ww = (0, ww0) ->
    ms co ww0 = (startw, ww1) ->
    rx co (sdoWriteRequest nodeId index subIndex value size) ww1 = ((1, mw), ww2) ->
    isSDOResponse nodeId index subIndex mw = true ->
    Z.land (byte_at mw 0) 0xf0 = 0x60 ->
    tx co (sdoReadRequest nodeId index subIndex) wr = (0, wr0) ->
    ms co wr0 = (startr, wr1) ->
    rx co (sdoReadRequest nodeId index subIndex) wr1 = ((1, mr), wr2) ->
    isSDOReadResponse nodeId index subIndex (to_u8 (Z.shiftl (4 - size) 2)) mr
    = true ->
    Z.land (byte_at mr 0) 0xf0 = 0x40 ->
    coNMTWaitBoot co (S fuel) msg0 nodeId wb = (Ret 0, wb1)
    /\ coSDOWrite co (S fuel) nodeId index subIndex value size ww = (Ret 0, ww2)
    /\ coSDORead co (S fuel) nodeId index subIndex value size wr
       = (Ret (0, sdoReadValue mr size), wr2).
Proof.
  intros W co fuel nodeId index subIndex value size msg0 mb mw mr
         startb startw startr wb wb0 wb1 ww ww0 ww1 ww2 wr wr0 wr1 wr2
         Hn Hs Hmsb Hrxb Hb Htxw Hmsw Hrxw Hw Hcsw Htxr Hmsr Hrxr Hr Hcsr.
  split; [| split].
  - unfold coNMTWaitBoot.
    rewrite assert_holds by (apply in_range_b; lia).
    unfold bind at 1, call at 1. rewrite Hmsb.
    cbn [waitBoot_loop]. unfold bind, call. rewrite Hrxb.
    cbn [Z.eqb]. now rewrite Hb.
  - unfold coSDOWrite.
    rewrite assert_holds by (apply in_range_b; lia).
    rewrite assert_holds by (apply in_range_b; lia).
    unfold bind at 1, call at 1. rewrite Htxw. cbn [Z.eqb negb].
    unfold bind at 1, call at 1. rewrite Hmsw.
    cbn [sdoWrite_loop]. unfold bind, call. rewrite Hrxw.
    cbn [Z.eqb]. rewrite Hw, Hcsw. reflexivity.
  - unfold coSDORead.
    rewrite assert_holds by (apply in_range_b; lia).
    rewrite assert_holds by (apply in_range_b; lia).
    unfold bind at 1, call at 1. rewrite Htxr. cbn [Z.eqb negb].
    unfold bind at 1, call at 1. rewrite Hmsr.
    cbn [sdoRead_loop]. unfold bind, call. rewrite Hrxr.
    cbn [Z.eqb]. rewrite Hr, Hcsr. reflexivity.
Qed.

(** No frame is received in any of these runs.  [coNMTWaitBoot] for node 5
    finds the boot-up frame of node 5 in its uninitialised buffer, as an
    earlier call leaves it there, and reports the boot-up; [coSDOWrite] and
    [coSDORead] are served by a driver that writes the buffer and reports
    "no data". *)
Lemma no_data_is_matched_runs :
  let boot := mkMsg 0x705 1 [0; 0; 0; 0; 0; 0; 0; 0] in
  let ack := mkMsg 0x585 8 [0x60; 0x00; 0x1A; 0x01; 0; 0; 0; 0] in
  let val := mkMsg 0x585 8 [0x4B; 0x00; 0x1A; 0x01; 0x34; 0x12; 0; 0] in
  coNMTWaitBoot (bus_co 0) 1 boot 5 (idle_bus [(1, None)] [0])
  = (Ret 0, idle_bus [] [])
  /\ coSDOWrite (bus_co 0) 1 5 0x1A00 1 0xBEEF 2 (idle_bus [(1, Some ack)] [0])
     = (Ret 0, mkBus [] [] [] [sdoWriteRequest 5 0x1A00 1 0xBEEF 2] [])
  /\ coSDORead (bus_co 0) 1 5 0x1A00 1 77 2 (idle_bus [(1, Some val)] [0])
     = (Ret (0, 0x1234), mkBus [] [] [] [sdoReadRequest 5 0x1A00 1] []).
Proof.
  cbv zeta.
  apply (no_data_is_matched bus (bus_co 0) 0 5 0x1A00 1 0xBEEF 2
           (mkMsg 0x705 1 [0; 0; 0; 0; 0; 0; 0; 0])
           (mkMsg 0x705 1 [0; 0; 0; 0; 0; 0; 0; 0])
           (mkMsg 0x585 8 [0x60; 0x00; 0x1A; 0x01; 0; 0; 0; 0])
           (mkMsg 0x585 8 [0x4B; 0x00; 0x1A; 0x01; 0x34; 0x12; 0; 0])
           0 0 0
           (idle_bus [(1, None)] [0]) (idle_bus [(1, None)] []) (idle_bus [] [])
           (idle_bus [(1, Some (mkMsg 0x585 8 [0x60; 0x00; 0x1A; 0x01; 0; 0; 0; 0]))] [0])
           (mkBus [(1, Some (mkMsg 0x585 8 [0x60; 0x00; 0x1A; 0x01; 0; 0; 0; 0]))]
              [0] [] [sdoWriteRequest 5 0x1A00 1 0xBEEF 2] [])
           (mkBus [(1, Some (mkMsg 0x585 8 [0x60; 0x00; 0x1A; 0x01; 0; 0; 0; 0]))]
              [] [] [sdoWriteRequest 5 0x1A00 1 0xBEEF 2] [])
           (mkBus [] [] [] [sdoWriteRequest 5 0x1A00 1 0xBEEF 2] [])
           (idle_bus [(1, Some (mkMsg 0x585 8 [0x4B; 0x00; 0x1A; 0x01; 0x34; 0x12; 0; 0]))] [0])
           (mkBus [(1, Some (mkMsg 0x585 8 [0x4B; 0x00; 0x1A; 0x01; 0x34; 0x12; 0; 0]))]
              [0] [] [sdoReadRequest 5 0x1A00 1] [])
           (mkBus [(1, Some (mkMsg 0x585 8 [0x4B; 0x00; 0x1A; 0x01; 0x34; 0x12; 0; 0]))]
              [] [] [sdoReadRequest 5 0x1A00 1] [])
           (mkBus [] [] [] [sdoReadRequest 5 0x1A00 1] []));
    try lia; reflexivity.
Defined.

(** ** Configuration read *)

(** The value stored on success is the little-endian value of the first
    [size] data bytes. *)
Lemma sdoReadValue_le (id l cs i1 i2 s b4 b5 b6 b7 size : Z) :
  is_u8 b4 -> is_u8 b5 -> is_u8 b6 -> is_u8 b7 ->
  1 <= size <= 4 ->
  sdoReadValue (mkMsg id l [cs; i1; i2; s; b4; b5; b6; b7]) size
  = le_value (Z.to_nat size) [b4; b5; b6; b7].
Proof.
  unfold is_u8. intros H4 H5 H6 H7 Hs.
  assert (Hc : size = 1 \/ size = 2 \/ size = 3 \/ size = 4) by lia.
  unfold sdoReadValue, byte_at. cbn [data nth].
  destruct Hc as [-> | [-> | [-> | ->]]];
    cbn [Z.ltb Z.compare Pos.compare Pos.compare_cont];
    cbv [Z.to_nat Pos.to_nat Pos.iter_op Nat.add le_value];
    rewrite ?Z.lor_0_r.
  - rewrite to_u32_small; lia.
  - rewrite lor_shiftl_add by lia. rewrite to_u32_small; lia.
  - rewrite (lor_shiftl_add b4 b5 8) by lia.
    rewrite lor_shiftl_add by lia. rewrite to_u32_small; lia.
  - rewrite (lor_shiftl_add b4 b5 8) by lia.
    rewrite (lor_shiftl_add _ b6 16) by lia.
    rewrite lor_shiftl_add by lia. rewrite to_u32_small; lia.
Qed.

(** The frame test of [coSDORead], condition by condition. *)
Lemma isSDOReadResponse_iff (nodeId index subIndex size : Z) (m : co_msg_t) :
  isSDOReadResponse nodeId index subIndex (to_u8 (Z.shiftl (4 - size) 2)) m = true
  <->
  getCOBIDType m = COB_ID_TSDO /\ getNodeId m = nodeId /\ len m = 8
  /\ byte_at m 1 = Z.land index 0xff
  /\ byte_at m 2 = Z.land (Z.shiftr index 8) 0xff
  /\ byte_at m 3 = subIndex
  /\ Z.land (byte_at m 0) 0x03 = 0x03
  /\ Z.land (byte_at m 0) 0x0c = to_u8 (Z.shiftl (4 - size) 2).
Proof.
  unfold isSDOReadResponse, isSDOResponse.
  rewrite !andb_true_iff, !Z.eqb_eq. intuition congruence.
Qed.

(** A frame that passes the test ends [coSDORead]: success with the value
    for the status nibbles 0x4 and 0x6, abort for every other. *)
Lemma coSDORead_verdict (c : Z) (fuel : nat)
    (nodeId index subIndex value size : Z)
    (pre : list co_msg_t) (m : co_msg_t) (t0 : Z) (ts : list Z)
    rest more log el :
  1 <= nodeId <= 127 -> 1 <= size <= 4 ->
  Forall (fun f => isSDOReadResponse nodeId index subIndex
                     (to_u8 (Z.shiftl (4 - size) 2)) f = false) pre ->
  length ts = length pre ->
  Forall (fun t => elapsed t0 t < CO_TIMEOUT_SDO) ts ->
  isSDOReadResponse nodeId index subIndex (to_u8 (Z.shiftl (4 - size) 2)) m = true ->
  is_u8 (byte_at m 0) ->
  (length pre < fuel)%nat ->
  coSDORead (bus_co c) fuel nodeId index subIndex value size
    (mkBus (received pre ++ (0, Some m) :: rest) (t0 :: ts ++ more) [] log el)
  = (Ret (if (byte_at m 0 / 16 =? 0x4) || (byte_at m 0 / 16 =? 0x6)
          then (0, sdoReadValue m size) else (0xFFFFFFFF, value)),
     mkBus rest more [] (log ++ [sdoReadRequest nodeId index subIndex]) el).
Proof.
  intros Hn Hs Hpre Hlen Hts Hm Hb Hfuel.
  unfold coSDORead.
  rewrite assert_holds by (apply in_range_b; lia).
  rewrite assert_holds by (apply in_range_b; lia).
  unfold bind at 1, call at 1. cbn [tx bus_co bus_tx tx_status rx_pending clock
    tx_log emcy_log Z.eqb negb].
  unfold bind at 1, call at 1. cbn [ms bus_co bus_ms clock rx_pending
    tx_status tx_log emcy_log].
  replace fuel with (length pre + S (fuel - S (length pre)))%nat by lia.
  cbv zeta. rewrite sdoRead_loop_skip by assumption.
  cbn [sdoRead_loop]. unfold bind at 1, call at 1.
  cbn [rx bus_co bus_rx rx_pending clock tx_status tx_log emcy_log Z.eqb].
  rewrite Hm.
  rewrite <- (status_nibble (byte_at m 0) 4), <- (status_nibble (byte_at m 0) 6)
    by (assumption || lia).
  change (16 * 4) with 0x40. change (16 * 6) with 0x60.
  destruct (_ || _); reflexivity.
Qed.

(** Reading 0x1018.1 of node 1 with length 4: the response [0x43, 0x18,
    0x10, 0x01, 0xAA, 0xBB, 0xCC, 0xDD] gives success and 0xDDCCBBAA. *)
Lemma coSDORead_vendor_id :
  coSDORead (bus_co 0) 1 1 0x1018 1 77 4
    (idle_bus [(0, Some (mkMsg 0x581 8 [0x43; 0x18; 0x10; 0x01;
                                          0xAA; 0xBB; 0xCC; 0xDD]))] [0])
  = (Ret (0, 0xDDCCBBAA), mkBus [] [] [] [sdoReadRequest 1 0x1018 1] []).
Proof. reflexivity. Qed.

(** An abort response, command specifier 0x80, does not pass the test of
    [coSDORead]: its expedited and size bits are clear. *)
Lemma abort_not_read_response (nodeId index subIndex nField : Z) (m : co_msg_t) :
  byte_at m 0 = 0x80 ->
  isSDOReadResponse nodeId index subIndex nField m = false.
Proof.
  intros Hcs. unfold isSDOReadResponse. rewrite Hcs.
  change (0x03 =? Z.land 0x80 0x03) with false.
  now rewrite andb_false_r.
Qed.

(** C3 (the code departs from it).  A response with command specifier 0x80,
    the SDO abort, is not accepted by [coSDORead] whatever its other bytes:
    the call does not return abort at that frame but goes on polling, with
    the abort frame in its buffer, until a later frame, the timeout or a
    receive error ends it. *)
Theorem coSDORead_abort_passed_over :
  forall (c : Z) (fuel : nat) (nodeId index subIndex value size : Z)
         (abort : co_msg_t) (t0 t : Z) rest more log el,
    1 <= nodeId <= 127 -> 1 <= size <= 4 ->
    byte_at abort 0 = 0x80 ->
    elapsed t0 t < CO_TIMEOUT_SDO ->
    coSDORead (bus_co c) (S fuel) nodeId index subIndex value size
      (mkBus ((0, Some abort) :: rest) (t0 :: t :: more) [] log el)
    = sdoRead_loop (bus_co c) nodeId index subIndex t0
        (to_u8 (Z.shiftl (4 - size) 2)) value size fuel abort
        (mkBus rest more [] (log ++ [sdoReadRequest nodeId index subIndex]) el).
Proof.
  intros c fuel nodeId index subIndex value size abort t0 t rest more log el
         Hn Hs Hcs Ht.
  unfold coSDORead.
  rewrite assert_holds by (apply in_range_b; lia).
  rewrite assert_holds by (apply in_range_b; lia).
  unfold bind at 1, call at 1. cbn [tx bus_co bus_tx tx_status rx_pending clock
    tx_log emcy_log Z.eqb negb].
  unfold bind at 1, call at 1. cbn [ms bus_co bus_ms clock rx_pending
    tx_status tx_log emcy_log].
  cbv zeta.
  apply (sdoRead_loop_skip c nodeId index subIndex t0
           (to_u8 (Z.shiftl (4 - size) 2)) value size [abort] [t]
           (sdoReadRequest nodeId index subIndex) fuel rest more [] _ el).
  - reflexivity.
  - constructor; [now apply abort_not_read_response | constructor].
  - constructor; [assumption | constructor].
Qed.

(** Reading 0x1018.1 of node 1 with length 4: the node answers with an
    abort (0x80, abort code 0x05040000) and the call still returns success
    with 0xDDCCBBAA on a later response. *)
Lemma coSDORead_abort_then_success :
  let abort := mkMsg 0x581 8 [0x80; 0x18; 0x10; 0x01; 0x00; 0x00; 0x04; 0x05] in
  let resp := mkMsg 0x581 8 [0x43; 0x18; 0x10; 0x01; 0xAA; 0xBB; 0xCC; 0xDD] in
  (1 <= 1 <= 127 /\ 1 <= 4 <= 4 /\ byte_at abort 0 = 0x80 /\
   elapsed 0 1 < CO_TIMEOUT_SDO) /\
  coSDORead (bus_co 0) 2 1 0x1018 1 77 4
    (mkBus [(0, Some abort); (0, Some resp)] [0; 1] [] [] [])
  = (Ret (0, 0xDDCCBBAA), mkBus [] [] [] [sdoReadRequest 1 0x1018 1] []).
Proof.
  cbv zeta. split.
  - repeat split; try lia; reflexivity.
  - apply (coSDORead_abort_passed_over 0 1 1 0x1018 1 77 4
             (mkMsg 0x581 8 [0x80; 0x18; 0x10; 0x01; 0x00; 0x00; 0x04; 0x05])
             0 1
             [(0, Some (mkMsg 0x581 8 [0x43; 0x18; 0x10; 0x01; 0xAA; 0xBB; 0xCC; 0xDD]))]
             [] [] []);
      try lia; reflexivity.
Defined.

(** * Further properties of the code *)

(** ** Classifier *)

(** Masking with a shifted mask is masking the shifted value. *)
Lemma land_shiftl_r (a b n : Z) :
  0 <= n -> Z.land a (Z.shiftl b n) = Z.shiftl (Z.land (Z.shiftr a n) b) n.
Proof.
  intros Hn. apply Z.bits_inj'. intros i Hi.
  rewrite Z.land_spec.
  destruct (Z.lt_ge_cases i n) as [Hlt | Hge].
  - rewrite !Z.shiftl_spec_low by lia. apply andb_false_r.
  - rewrite !Z.shiftl_spec by lia.
    rewrite Z.land_spec, Z.shiftr_spec by lia.
    now replace (i - n + n) with i by lia.
Qed.

Lemma land_0x780 (z : Z) : Z.land z 0x780 = 128 * ((z / 128) mod 16).
Proof.
  change 0x780 with (Z.shiftl (Z.ones 4) 7).
  rewrite land_shiftl_r by lia.
  rewrite Z.land_ones, Z.shiftr_div_pow2, Z.shiftl_mul_pow2 by lia.
  change (2 ^ 7) with 128. change (2 ^ 4) with 16. lia.
Qed.

(** The classifier and the node extractor are total on every identifier and
    split its low eleven bits: the COB-ID type is one of the sixteen
    multiples of 128 up to 0x780, the node id is below 128, and together
    they are the identifier modulo 2^11; higher identifier bits are
    ignored. *)
Theorem classifier_split :
  forall m : co_msg_t,
    getCOBIDType m = 128 * ((cobId m / 128) mod 16)
    /\ getNodeId m = cobId m mod 128
    /\ 0 <= getCOBIDType m <= 0x780
    /\ 0 <= getNodeId m <= 127
    /\ getCOBIDType m + getNodeId m = cobId m mod 2 ^ 11.
Proof.
  intros m. unfold getCOBIDType, getNodeId.
  rewrite land_0x780, land_0x7f.
  pose proof (Z.mod_pos_bound (cobId m) 128 ltac:(lia)) as Hn.
  pose proof (Z.mod_pos_bound (cobId m / 128) 16 ltac:(lia)) as Hk.
  rewrite to_u8_small by lia.
  repeat split; try lia.
  change (2 ^ 11) with (128 * 16).
  rewrite Z.rem_mul_r by lia. lia.
Qed.

(** ** Encoders without a response *)

(** [coNMTReq] to node 0-127, 0 addressing all nodes, does one thing: it
    hands [tx] the frame with identifier 0x000, length 2 and payload
    [request code, node] and returns the status of [tx].  The addressed
    node travels in the payload only: the frame's node id is 0. *)
Theorem coNMTReq_frame :
  forall (W : Type) (co : co_t W) (nodeId : Z) (req : co_nmt_state_req_t) (w : W),
    0 <= nodeId <= 127 ->
    let frame := mkMsg 0x000 2 [nmt_code req; nodeId; 0; 0; 0; 0; 0; 0] in
    coNMTReq co nodeId req w = (Ret (fst (tx co frame w)), snd (tx co frame w))
    /\ getCOBIDType frame = COB_ID_NMT /\ getNodeId frame = 0.
Proof.
  intros W co nodeId req w Hn frame. split; [| split; reflexivity].
  unfold coNMTReq.
  rewrite assert_holds by (apply Z.leb_le; lia).
  rewrite (to_u8_small nodeId) by lia.
  rewrite (to_u8_small (nmt_code req)) by (destruct req; cbn; lia).
  unfold call. fold frame.
  change (mkMsg COB_ID_NMT 2 (data8 [nmt_code req; nodeId])) with frame.
  now destruct (tx co frame w).
Qed.

(** A reset of all nodes, as the example issues it, on a bus that sends. *)
Lemma coNMTReq_frame_reset_all :
  0 <= 0 <= 127 /\
  coNMTReq (bus_co 0) 0 CO_NMT_RST (idle_bus [] [])
  = (Ret 0, mkBus [] [] [] [mkMsg 0x000 2 [0x81; 0; 0; 0; 0; 0; 0; 0]] []).
Proof.
  split; [lia |].
  apply (coNMTReq_frame bus (bus_co 0) 0 CO_NMT_RST (idle_bus [] [])). lia.
Defined.

(** Three bytes, least significant first, are the value modulo 2^24. *)
Lemma le_value_24 (t : Z) (rest : list Z) :
  le_value 3 (t mod 256 :: (t / 256) mod 256 :: (t / 65536) mod 256 :: rest)
  = t mod 2 ^ 24.
Proof.
  cbn [le_value]. change (2 ^ 24) with (256 * (256 * 256)).
  rewrite (Z.rem_mul_r t 256 (256 * 256)) by lia.
  rewrite (Z.rem_mul_r (t / 256) 256 256) by lia.
  rewrite Z.div_div by lia. change (256 * 256) with 65536. lia.
Qed.

(** [coTIME] sends, with identifier 0x100 and length 6, the low 24 bits of
    the millisecond count least significant byte first, followed by zeros.
    The count is the argument, unless the argument is [CO_TIME_USE_TIMECB]
    (UINT32_MAX): then it is a reading of the clock, so that the count
    0xFFFFFFFF itself cannot be passed.  The status of [tx] is returned. *)
Theorem coTIME_frame :
  forall (W : Type) (co : co_t W) (t now : Z) (w w1 : W),
    is_u32 t ->
    ms co w = (now, w1) ->
    let count := if t =? UINT32_MAX then now else t in
    let w' := if t =? UINT32_MAX then w1 else w in
    let frame :=
      mkMsg 0x100 6 [count mod 256; (count / 256) mod 256;
                     (count / 65536) mod 256; 0; 0; 0; 0; 0] in
    coTIME co t w = (Ret (fst (tx co frame w')), snd (tx co frame w'))
    /\ le_value 3 (data frame) = count mod 2 ^ 24.
Proof.
  intros W co t now w w1 _ Hms count w' frame.
  split; [| apply le_value_24].
  unfold coTIME, CO_TIME_USE_TIMECB. rewrite (Z.eqb_sym UINT32_MAX t).
  assert (Hframe : forall c : Z,
            mkMsg COB_ID_TIME 6
              (data8 [Z.land c 0xff; Z.land (Z.shiftr c 8) 0xff;
                      Z.land (Z.shiftr c 16) 0xff; 0; 0; 0])
            = mkMsg 0x100 6 [c mod 256; (c / 256) mod 256;
                             (c / 65536) mod 256; 0; 0; 0; 0; 0]).
  { intros c. rewrite !land_0xff, !Z.shiftr_div_pow2 by lia. reflexivity. }
  unfold frame, w', count.
  destruct (t =? UINT32_MAX).
  - unfold bind, call. rewrite Hms, Hframe. now destruct (tx co _ w1).
  - unfold bind, call, ret. rewrite Hframe. now destruct (tx co _ w).
Qed.

(** 0x01020304 ms goes out as 04 03 02: the top byte is cut off; the
    sentinel sends the clock reading 0x00ABCDEF instead. *)
Lemma coTIME_frame_runs :
  (is_u32 0x01020304 /\
   coTIME (bus_co 0) 0x01020304 (idle_bus [] [0xABCDEF])
   = (Ret 0, mkBus [] [0xABCDEF] [] [mkMsg 0x100 6 [4; 3; 2; 0; 0; 0; 0; 0]] []))
  /\
  (is_u32 UINT32_MAX /\
   coTIME (bus_co 0) UINT32_MAX (idle_bus [] [0xABCDEF])
   = (Ret 0, mkBus [] [] [] [mkMsg 0x100 6 [0xEF; 0xCD; 0xAB; 0; 0; 0; 0; 0]] [])).
Proof.
  split.
  - split; [unfold is_u32; lia |].
    apply (coTIME_frame bus (bus_co 0) 0x01020304 0xABCDEF
             (idle_bus [] [0xABCDEF]) (idle_bus [] []));
      [unfold is_u32; lia | reflexivity].
  - split; [unfold is_u32, UINT32_MAX; lia |].
    apply (coTIME_frame bus (bus_co 0) UINT32_MAX 0xABCDEF
             (idle_bus [] [0xABCDEF]) (idle_bus [] []));
      [unfold is_u32, UINT32_MAX; lia | reflexivity].
Defined.

(** [coTPDO] for node 1-127 with 1-8 bytes hands [tx] one frame with
    identifier 0x200 + node, the length, and the bytes followed by zeros up
    to 8, and returns the status of [tx]. *)
Theorem coTPDO_frame :
  forall (W : Type) (co : co_t W) (nodeId : Z) (bytes : list Z) (n : nat) (w : W),
    1 <= nodeId <= 127 ->
    (1 <= n <= 8)%nat -> (n <= length bytes)%nat ->
    let frame := mkMsg (0x200 + nodeId) (Z.of_nat n)
                   (firstn n bytes ++ repeat 0 (8 - n)) in
    coTPDO co nodeId bytes (Z.of_nat n) w
    = (Ret (fst (tx co frame w)), snd (tx co frame w))
    /\ length (data frame) = 8%nat.
Proof.
  intros W co nodeId bytes n w Hn Hl Hb frame. split.
  - unfold coTPDO.
    rewrite assert_holds by (apply in_range_b; lia).
    rewrite assert_holds by (apply in_range_b; lia).
    unfold memcpy. change (Z.of_nat (length (data8 []))) with 8.
    replace ((0 <=? Z.of_nat n) && (Z.of_nat n <=? Z.of_nat (length bytes))
             && (Z.of_nat n <=? 8)) with true
      by (symmetry; repeat (apply andb_true_intro; split); apply Z.leb_le; lia).
    rewrite Nat2Z.id.
    change COB_ID_RPDO1 with 0x200.
    rewrite to_u16_small, to_u8_small by lia.
    replace (skipn n (data8 [])) with (repeat 0 (8 - n)).
    + unfold call. fold frame. now destruct (tx co frame w).
    + change (data8 []) with (repeat 0 8).
      do 9 (destruct n as [| n]; [reflexivity |]). lia.
  - unfold frame. cbn [data]. rewrite length_app, firstn_length_le, repeat_length by lia.
    lia.
Qed.

(** The six process data bytes of the example, to node 127. *)
Lemma coTPDO_frame_example :
  (1 <= 127 <= 127 /\ (1 <= 6 <= 8)%nat /\
   (6 <= length [1; 2; 3; 4; 5; 6])%nat) /\
  coTPDO (bus_co 0) 127 [1; 2; 3; 4; 5; 6] 6 (idle_bus [] [])
  = (Ret 0, mkBus [] [] [] [mkMsg 0x27F 6 [1; 2; 3; 4; 5; 6; 0; 0]] []).
Proof.
  split.
  - cbn [length]. lia.
  - apply (coTPDO_frame bus (bus_co 0) 127 [1; 2; 3; 4; 5; 6] 6 (idle_bus [] []));
      cbn [length]; lia.
Defined.

(** ** Arguments the assertions reject *)

Lemma assert_fails {W A : Type} (b : bool) (k : M W A) (w : W) :
  b = false -> (assert b ;;; k) w = (Stop AssertionFailed, w).
Proof. intros ->. reflexivity. Qed.

Lemma out_of_range_b (lo hi z : Z) :
  z <= lo \/ hi < z -> (lo <? z) && (z <=? hi) = false.
Proof.
  intros Hz. destruct (Z.ltb_spec lo z); destruct (Z.leb_spec z hi);
    cbn; try reflexivity; lia.
Qed.

(** A node id outside 1-127 stops every per-node call at its assertion,
    before any callback is invoked: nothing is sent, received or read.
    [coNMTReq], for which node 0 addresses all nodes, is stopped in the
    same way by an id above 127. *)
Theorem node_id_asserted :
  forall (W : Type) (co : co_t W) (fuel : nat) (msg0 : co_msg_t)
         (nodeId nmtNode index subIndex value size : Z) (bytes : list Z)
         (req : co_nmt_state_req_t) (w : W),
    nodeId <= 0 \/ 127 < nodeId ->
    127 < nmtNode ->
    coNMTWaitBoot co fuel msg0 nodeId w = (Stop AssertionFailed, w)
    /\ coTPDO co nodeId bytes size w = (Stop AssertionFailed, w)
    /\ coRPDO co msg0 nodeId bytes size w = (Stop AssertionFailed, w)
    /\ coSDOWrite co fuel nodeId index subIndex value size w
       = (Stop AssertionFailed, w)
    /\ coSDORead co fuel nodeId index subIndex value size w
       = (Stop AssertionFailed, w)
    /\ coNMTReq co nmtNode req w = (Stop AssertionFailed, w).
Proof.
  intros W co fuel msg0 nodeId nmtNode index subIndex value size bytes req w
         Hn Hnmt.
  pose proof (out_of_range_b 0 127 nodeId Hn) as Hb.
  repeat split.
  - unfold coNMTWaitBoot. now apply assert_fails.
  - unfold coTPDO. now apply assert_fails.
  - unfold coRPDO. now apply assert_fails.
  - unfold coSDOWrite. now apply assert_fails.
  - unfold coSDORead. now apply assert_fails.
  - unfold coNMTReq. apply assert_fails. apply Z.leb_gt. lia.
Qed.

(** Node 0, the broadcast address of NMT, is no node for the other calls. *)
Lemma node_id_asserted_node0 :
  ((0 <= 0 \/ 127 < 0) /\ 127 < 128) /\
  coNMTWaitBoot (bus_co 0) 5 (mkMsg 0x700 1 [0; 0; 0; 0; 0; 0; 0; 0]) 0
    (idle_bus [(0, Some (mkMsg 0x700 1 [0; 0; 0; 0; 0; 0; 0; 0]))] [0])
  = (Stop AssertionFailed,
     idle_bus [(0, Some (mkMsg 0x700 1 [0; 0; 0; 0; 0; 0; 0; 0]))] [0]).
Proof.
  split; [lia |].
  apply (node_id_asserted bus (bus_co 0) 5 (mkMsg 0x700 1 [0; 0; 0; 0; 0; 0; 0; 0])
           0 128 0 0 0 0 [] CO_NMT_OP
           (idle_bus [(0, Some (mkMsg 0x700 1 [0; 0; 0; 0; 0; 0; 0; 0]))] [0]));
    lia.
Defined.

(** A byte count outside the supported range, 1-8 for [coTPDO] and 1-4 for
    the SDO calls, stops the call at its assertion: no request is sent. *)
Theorem size_asserted :
  forall (W : Type) (co : co_t W) (fuel : nat)
         (nodeId index subIndex value pdo_size sdo_size : Z) (bytes : list Z)
         (w : W),
    1 <= nodeId <= 127 ->
    pdo_size <= 0 \/ 8 < pdo_size ->
    sdo_size <= 0 \/ 4 < sdo_size ->
    coTPDO co nodeId bytes pdo_size w = (Stop AssertionFailed, w)
    /\ coSDOWrite co fuel nodeId index subIndex value sdo_size w
       = (Stop AssertionFailed, w)
    /\ coSDORead co fuel nodeId index subIndex value sdo_size w
       = (Stop AssertionFailed, w).
Proof.
  intros W co fuel nodeId index subIndex value pdo_size sdo_size bytes w Hn Hp Hs.
  repeat split.
  - unfold coTPDO. rewrite assert_holds by (apply in_range_b; lia).
    apply assert_fails. now apply out_of_range_b.
  - unfold coSDOWrite. rewrite assert_holds by (apply in_range_b; lia).
    apply assert_fails. now apply out_of_range_b.
  - unfold coSDORead. rewrite assert_holds by (apply in_range_b; lia).
    apply assert_fails. now apply out_of_range_b.
Qed.

(** An eight byte write and a nine byte PDO. *)
Lemma size_asserted_runs :
  (1 <= 5 <= 127 /\ (9 <= 0 \/ 8 < 9) /\ (8 <= 0 \/ 4 < 8)) /\
  coTPDO (bus_co 0) 5 [1; 2; 3; 4; 5; 6; 7; 8; 9] 9 (idle_bus [] [])
  = (Stop AssertionFailed, idle_bus [] [])
  /\ coSDOWrite (bus_co 0) 3 5 0x1A00 1 0xBEEF 8 (idle_bus [] [])
     = (Stop AssertionFailed, idle_bus [] [])
  /\ coSDORead (bus_co 0) 3 5 0x1A00 1 0xBEEF 8 (idle_bus [] [])
     = (Stop AssertionFailed, idle_bus [] []).
Proof.
  split; [lia |].
  apply (size_asserted bus (bus_co 0) 3 5 0x1A00 1 0xBEEF 9 8
           [1; 2; 3; 4; 5; 6; 7; 8; 9] (idle_bus [] [])); lia.
Defined.

(** ** Cyclic reception, frame by frame *)

(** A frame of class 0x180 from the awaited node is process data: [coRPDO]
    copies its [len] bytes to the front of the caller's buffer, leaves the
    rest of the buffer as it was, stores the length and returns 0.  The
    emergency sink is not invoked.  A frame of length 0 is process data
    too. *)
Theorem coRPDO_process_data :
  forall (W : Type) (co : co_t W) (msg0 : co_msg_t) (nodeId : Z)
         (buf : list Z) (buf_len : Z) (w w1 : W) (id l : Z) (d : list Z),
    1 <= nodeId <= 127 ->
    rx co msg0 w = ((0, mkMsg id l d), w1) ->
    getCOBIDType (mkMsg id l d) = COB_ID_TPDO1 ->
    getNodeId (mkMsg id l d) = nodeId ->
    0 <= l <= Z.of_nat (length d) ->
    l <= Z.of_nat (length buf) ->
    coRPDO co msg0 nodeId buf buf_len w
    = (Ret (0, firstn (Z.to_nat l) d ++ skipn (Z.to_nat l) buf, l), w1).
Proof.
  intros W co msg0 nodeId buf buf_len w w1 id l d Hn Hrx Hty Hnode Hl Hb.
  unfold coRPDO.
  rewrite assert_holds by (apply in_range_b; lia).
  unfold bind at 1, call at 1. rewrite Hrx. cbn [negb Z.eqb].
  rewrite Hty, Hnode. change (COB_ID_EMCY =? COB_ID_TPDO1) with false.
  rewrite !Z.eqb_refl. cbn [andb].
  unfold memcpy.
  replace ((0 <=? l) && (l <=? Z.of_nat (length d))
           && (l <=? Z.of_nat (length buf))) with true
    by (symmetry; repeat (apply andb_true_intro; split); apply Z.leb_le; lia).
  reflexivity.
Qed.

(** Three bytes from node 127 into the eight byte buffer of the example. *)
Lemma coRPDO_process_data_example :
  let frame := mkMsg 0x1FF 3 [0x10; 0x20; 0x30; 0; 0; 0; 0; 0] in
  (1 <= 127 <= 127 /\
   getCOBIDType frame = COB_ID_TPDO1 /\ getNodeId frame = 127 /\
   0 <= 3 <= Z.of_nat (length (data frame)) /\
   3 <= Z.of_nat (length [9; 9; 9; 9; 9; 9; 9; 9])) /\
  coRPDO (bus_co 0) (mkMsg 0 0 []) 127 [9; 9; 9; 9; 9; 9; 9; 9] 0
    (idle_bus [(0, Some frame)] [])
  = (Ret (0, [0x10; 0x20; 0x30; 9; 9; 9; 9; 9], 3), idle_bus [] []).
Proof.
  cbv zeta. split.
  - cbn [length data]. repeat split; try lia; reflexivity.
  - apply (coRPDO_process_data bus (bus_co 0) (mkMsg 0 0 []) 127
             [9; 9; 9; 9; 9; 9; 9; 9] 0
             (idle_bus [(0, Some (mkMsg 0x1FF 3 [0x10; 0x20; 0x30; 0; 0; 0; 0; 0]))] [])
             (idle_bus [] []) 0x1FF 3 [0x10; 0x20; 0x30; 0; 0; 0; 0; 0]);
      cbn [length]; try lia; reflexivity.
Defined.

(** One reception that finds neither process data of the awaited node nor
    an emergency. *)
Lemma coRPDO_no_process_data_gen {W : Type} (co : co_t W) (msg0 : co_msg_t)
    (nodeId : Z) (buf : list Z) (buf_len : Z) (w w1 : W) (s : Z) (m : co_msg_t) :
  1 <= nodeId <= 127 ->
  rx co msg0 w = ((s, m), w1) ->
  s <> 0 \/
  (getCOBIDType m <> COB_ID_EMCY /\
   (getCOBIDType m <> COB_ID_TPDO1 \/ getNodeId m <> nodeId)) ->
  coRPDO co msg0 nodeId buf buf_len w
  = (Ret (if s =? 0 then 1 else s, buf, buf_len), w1).
Proof.
  intros Hn Hrx Hcase.
  unfold coRPDO.
  rewrite assert_holds by (apply in_range_b; lia).
  unfold bind at 1, call at 1. rewrite Hrx. rewrite (Z.eqb_sym 0 s).
  destruct (Z.eqb_spec s 0) as [-> | Hs]; [| reflexivity].
  cbn [negb]. destruct Hcase as [Hs | [Hem Hpdo]]; [congruence |].
  destruct (Z.eqb_spec COB_ID_EMCY (getCOBIDType m)); [congruence |].
  destruct (Z.eqb_spec COB_ID_TPDO1 (getCOBIDType m)) as [Ht | Ht];
    [| reflexivity].
  destruct (Z.eqb_spec nodeId (getNodeId m)) as [Hnode | Hnode];
    [| reflexivity].
  destruct Hpdo; congruence.
Qed.

(** Whatever is no process data for the awaited node and no emergency
    leaves the caller's buffer and length alone and invokes nothing after
    [rx]: a status of [rx] other than 0 is returned as it is, and a received
    frame of another class, or of class 0x180 from another node, yields 1. *)
Theorem coRPDO_no_process_data :
  forall (W : Type) (co : co_t W) (msg0 : co_msg_t) (nodeId : Z)
         (buf : list Z) (buf_len : Z) (w w1 : W) (s : Z) (m : co_msg_t),
    1 <= nodeId <= 127 ->
    rx co msg0 w = ((s, m), w1) ->
    s <> 0 \/
    (getCOBIDType m <> COB_ID_EMCY /\
     (getCOBIDType m <> COB_ID_TPDO1 \/ getNodeId m <> nodeId)) ->
    coRPDO co msg0 nodeId buf buf_len w
    = (Ret (if s =? 0 then 1 else s, buf, buf_len), w1).
Proof.
  intros W co msg0 nodeId buf buf_len w w1 s m Hn Hrx Hcase.
  exact (coRPDO_no_process_data_gen co msg0 nodeId buf buf_len w w1 s m Hn Hrx Hcase).
Qed.

(** Waiting for node 127, the process data of node 5 is no usable frame. *)
Lemma coRPDO_no_process_data_other_node :
  let frame := mkMsg 0x185 3 [0x10; 0x20; 0x30; 0; 0; 0; 0; 0] in
  (1 <= 127 <= 127 /\
   (0 <> 0 \/
    (getCOBIDType frame <> COB_ID_EMCY /\
     (getCOBIDType frame <> COB_ID_TPDO1 \/ getNodeId frame <> 127)))) /\
  coRPDO (bus_co 0) (mkMsg 0 0 []) 127 [9; 9; 9; 9; 9; 9; 9; 9] 0
    (idle_bus [(0, Some frame)] [])
  = (Ret (1, [9; 9; 9; 9; 9; 9; 9; 9], 0), idle_bus [] []).
Proof.
  cbv zeta.
  assert (Hcase : 0 <> 0 \/
    (getCOBIDType (mkMsg 0x185 3 [0x10; 0x20; 0x30; 0; 0; 0; 0; 0]) <> COB_ID_EMCY /\
     (getCOBIDType (mkMsg 0x185 3 [0x10; 0x20; 0x30; 0; 0; 0; 0; 0]) <> COB_ID_TPDO1
      \/ getNodeId (mkMsg 0x185 3 [0x10; 0x20; 0x30; 0; 0; 0; 0; 0]) <> 127))).
  { right. split; [| right]; cbv; discriminate. }
  split.
  - split; [lia | exact Hcase].
  - apply (coRPDO_no_process_data bus (bus_co 0) (mkMsg 0 0 []) 127
             [9; 9; 9; 9; 9; 9; 9; 9] 0
             (idle_bus [(0, Some (mkMsg 0x185 3 [0x10; 0x20; 0x30; 0; 0; 0; 0; 0]))] [])
             (idle_bus [] []) 0
             (mkMsg 0x185 3 [0x10; 0x20; 0x30; 0; 0; 0; 0; 0]));
      [lia | reflexivity | exact Hcase].
Defined.

(** [coRPDO] copies as many bytes as the length field of the frame says,
    without comparing it with the eight bytes of the frame or with the
    caller's buffer: a process data frame whose length field is above 8, or
    above the size of the buffer, takes the copy out of bounds. *)
Theorem coRPDO_trusts_length :
  forall (W : Type) (co : co_t W) (msg0 : co_msg_t) (nodeId : Z)
         (buf : list Z) (buf_len : Z) (w w1 : W) (id l : Z) (d : list Z),
    1 <= nodeId <= 127 ->
    rx co msg0 w = ((0, mkMsg id l d), w1) ->
    getCOBIDType (mkMsg id l d) = COB_ID_TPDO1 ->
    getNodeId (mkMsg id l d) = nodeId ->
    length d = 8%nat ->
    8 < l \/ Z.of_nat (length buf) < l ->
    coRPDO co msg0 nodeId buf buf_len w = (Stop OutOfBounds, w1).
Proof.
  intros W co msg0 nodeId buf buf_len w w1 id l d Hn Hrx Hty Hnode Hd Hl.
  unfold coRPDO.
  rewrite assert_holds by (apply in_range_b; lia).
  unfold bind at 1, call at 1. rewrite Hrx. cbn [negb Z.eqb].
  rewrite Hty, Hnode. change (COB_ID_EMCY =? COB_ID_TPDO1) with false.
  rewrite !Z.eqb_refl. cbn [andb].
  unfold memcpy. rewrite Hd.
  replace ((0 <=? l) && (l <=? Z.of_nat 8) && (l <=? Z.of_nat (length buf)))
    with false; [reflexivity |].
  symmetry. destruct (Z.leb_spec 0 l); destruct (Z.leb_spec l (Z.of_nat 8));
    destruct (Z.leb_spec l (Z.of_nat (length buf))); cbn; try reflexivity; lia.
Qed.

(** A driver that passes on a raw length code of 15. *)
Lemma coRPDO_trusts_length_dlc15 :
  let frame := mkMsg 0x1FF 15 [1; 2; 3; 4; 5; 6; 7; 8] in
  (1 <= 127 <= 127 /\
   getCOBIDType frame = COB_ID_TPDO1 /\ getNodeId frame = 127 /\
   length (data frame) = 8%nat /\
   (8 < 15 \/ Z.of_nat (length [9; 9; 9; 9; 9; 9; 9; 9]) < 15)) /\
  coRPDO (bus_co 0) (mkMsg 0 0 []) 127 [9; 9; 9; 9; 9; 9; 9; 9] 0
    (idle_bus [(0, Some frame)] [])
  = (Stop OutOfBounds, idle_bus [] []).
Proof.
  cbv zeta. split.
  - cbn [length data]. repeat split; try lia; reflexivity.
  - apply (coRPDO_trusts_length bus (bus_co 0) (mkMsg 0 0 []) 127
             [9; 9; 9; 9; 9; 9; 9; 9] 0
             (idle_bus [(0, Some (mkMsg 0x1FF 15 [1; 2; 3; 4; 5; 6; 7; 8]))] [])
             (idle_bus [] []) 0x1FF 15 [1; 2; 3; 4; 5; 6; 7; 8]);
      cbn [length]; try lia; reflexivity.
Defined.

(** ** Frames of the master seen by its own receiver *)

(** The frame [coTPDO] sends to a node is never taken for process data by
    [coRPDO], for whichever node it waits, nor for an emergency: the master
    sends on 0x200 + node and listens on 0x180 + node. *)
Theorem coTPDO_not_received :
  forall (c : Z) (nodeId peer : Z) (bytes : list Z) (size : Z)
         (msg0 frame : co_msg_t) (buf : list Z) (buf_len : Z),
    1 <= nodeId <= 127 -> 1 <= peer <= 127 ->
    1 <= size <= 8 -> size <= Z.of_nat (length bytes) ->
    tx_log (snd (coTPDO (bus_co c) nodeId bytes size (idle_bus [] []))) = [frame] ->
    coRPDO (bus_co c) msg0 peer buf buf_len (idle_bus [(0, Some frame)] [])
    = (Ret (1, buf, buf_len), idle_bus [] []).
Proof.
  intros c nodeId peer bytes size msg0 frame buf buf_len Hn Hp Hs Hb Hlog.
  rewrite coTPDO_log in Hlog by assumption.
  cbn [tx_log idle_bus app] in Hlog. injection Hlog as <-.
  change (COB_ID_RPDO1 + nodeId) with (128 * 4 + nodeId).
  match goal with
  | |- context [mkMsg _ ?l ?d] =>
      destruct (classify_base_node 4 nodeId l d) as (Ht & Hi & Hc); try lia;
      set (frame := mkMsg (to_u16 (128 * 4 + nodeId)) l d) in *
  end.
  apply (coRPDO_no_process_data_gen (bus_co c) msg0 peer buf buf_len
           (idle_bus [(0, Some frame)] []) (idle_bus [] []) 0 frame);
    [lia | reflexivity |].
  right. rewrite Ht. split; [| left]; cbv; discriminate.
Qed.

(** The process data sent to node 127, looped back while waiting for the
    process data of node 127. *)
Lemma coTPDO_not_received_example :
  (1 <= 127 <= 127 /\ 1 <= 127 <= 127 /\ 1 <= 6 <= 8 /\
   6 <= Z.of_nat (length [1; 2; 3; 4; 5; 6]) /\
   tx_log (snd (coTPDO (bus_co 0) 127 [1; 2; 3; 4; 5; 6] 6 (idle_bus [] [])))
   = [mkMsg 0x27F 6 [1; 2; 3; 4; 5; 6; 0; 0]]) /\
  coRPDO (bus_co 0) (mkMsg 0 0 []) 127 [9; 9; 9; 9; 9; 9; 9; 9] 0
    (idle_bus [(0, Some (mkMsg 0x27F 6 [1; 2; 3; 4; 5; 6; 0; 0]))] [])
  = (Ret (1, [9; 9; 9; 9; 9; 9; 9; 9], 0), idle_bus [] []).
Proof.
  split.
  - cbn [length]. repeat split; try lia; reflexivity.
  - apply (coTPDO_not_received 0 127 127 [1; 2; 3; 4; 5; 6] 6 (mkMsg 0 0 [])
             (mkMsg 0x27F 6 [1; 2; 3; 4; 5; 6; 0; 0])
             [9; 9; 9; 9; 9; 9; 9; 9] 0);
      cbn [length]; try lia; reflexivity.
Defined.

(** A SYNC frame is of the class of the emergencies.  When the frame sent
    by [coSYNC] comes in at [coRPDO], it is delivered to the emergency sink
    as an emergency of node 0 with error register 0, whose error code is
    the SYNC counter (0 without the counter feature), and 1 is returned. *)
Theorem coSYNC_received_as_emergency :
  forall (enable : bool) (c nodeId : Z) (msg0 frame : co_msg_t)
         (buf : list Z) (buf_len : Z),
    0 <= c < 256 -> 1 <= nodeId <= 127 ->
    tx_log (snd (coSYNC enable (bus_co c) (idle_bus [] []))) = [frame] ->
    coRPDO (bus_co c) msg0 nodeId buf buf_len (idle_bus [(0, Some frame)] [])
    = (Ret (1, buf, buf_len),
       mkBus [] [] [] []
         [mkEmcy 0 (if enable then c else 0) 0 [0; 0; 0; 0; 0]]).
Proof.
  intros enable c nodeId msg0 frame buf buf_len Hc Hn Hlog.
  unfold coRPDO.
  rewrite assert_holds by (apply in_range_b; lia).
  destruct enable; cbn in Hlog; injection Hlog as <-.
  - unfold bind at 1, call at 1.
    cbn [rx bus_co bus_rx rx_pending idle_bus clock tx_status tx_log emcy_log
         negb Z.eqb].
    change (COB_ID_EMCY =? getCOBIDType (mkMsg 128 1 [c; 0; 0; 0; 0; 0; 0; 0]))
      with true.
    unfold byte_at. cbn [data nth skipn].
    change (Z.shiftl 0 8) with 0. rewrite Z.lor_0_r.
    rewrite to_u32_small, to_u16_small by lia.
    reflexivity.
  - reflexivity.
Qed.

(** The SYNC with counter value 7. *)
Lemma coSYNC_received_as_emergency_counter7 :
  (0 <= 7 < 256 /\ 1 <= 127 <= 127 /\
   tx_log (snd (coSYNC true (bus_co 7) (idle_bus [] [])))
   = [mkMsg 0x080 1 [7; 0; 0; 0; 0; 0; 0; 0]]) /\
  coRPDO (bus_co 7) (mkMsg 0 0 []) 127 [9; 9; 9; 9; 9; 9; 9; 9] 0
    (idle_bus [(0, Some (mkMsg 0x080 1 [7; 0; 0; 0; 0; 0; 0; 0]))] [])
  = (Ret (1, [9; 9; 9; 9; 9; 9; 9; 9], 0),
     mkBus [] [] [] [] [mkEmcy 0 7 0 [0; 0; 0; 0; 0]]).
Proof.
  split.
  - repeat split; try lia; reflexivity.
  - apply (coSYNC_received_as_emergency true 7 127 (mkMsg 0 0 [])
             (mkMsg 0x080 1 [7; 0; 0; 0; 0; 0; 0; 0])
             [9; 9; 9; 9; 9; 9; 9; 9] 0);
      try lia; reflexivity.
Defined.

(** ** Polls that end a blocking call *)

Lemma passed_over_app (test : co_msg_t -> bool) (evs evs' : list (Z * option co_msg_t)) :
  forall msg : co_msg_t,
    passed_over test msg (evs ++ evs')
    = passed_over test msg evs
      && passed_over test (buffer_after_events evs msg) evs'.
Proof.
  induction evs as [| ev evs IH]; intros msg; [reflexivity |].
  cbn [app passed_over buffer_after_events fold_left].
  fold (buffer_after_events evs (buffer_on ev msg)).
  rewrite IH. now rewrite !andb_assoc.
Qed.

Lemma passed_over_cons (test : co_msg_t -> bool) (msg : co_msg_t)
    (s : Z) (wr : option co_msg_t) (evs : list (Z * option co_msg_t)) :
  passed_over test msg ((s, wr) :: evs) = true ->
  (s =? -1) = false
  /\ test (match wr with Some m => m | None => msg end) = false
  /\ passed_over test (match wr with Some m => m | None => msg end) evs = true.
Proof.
  cbn [passed_over buffer_on fst snd].
  rewrite !andb_true_iff, !negb_true_iff. tauto.
Qed.

Section PassingOver.

Variable c : Z.

(** One poll of the scripted bus that is passed over, in each loop. *)
Ltac pass_one Hpass Ht :=
  apply passed_over_cons in Hpass; destruct Hpass as (Hs & Htest & Hpass);
  unfold bind at 1, call at 1;
  cbn [rx bus_co bus_rx rx_pending clock tx_status tx_log emcy_log];
  rewrite Hs, Htest; unfold bind;
  rewrite haveTimeout_pending by (exact Ht || (cbv; reflexivity));
  cbn [Z.eqb negb].

Lemma waitBoot_loop_pass (nodeId start : Z) (evs : list (Z * option co_msg_t)) :
  forall (ts : list Z) (msg : co_msg_t) (fuel : nat) rest more txs log el,
    length ts = length evs ->
    passed_over (isBootUp nodeId) msg evs = true ->
    Forall (fun t => elapsed start t < CO_TIMEOUT_NMT) ts ->
    waitBoot_loop (bus_co c) nodeId start (length evs + fuel) msg
      (mkBus (evs ++ rest) (ts ++ more) txs log el)
    = waitBoot_loop (bus_co c) nodeId start fuel (buffer_after_events evs msg)
        (mkBus rest more txs log el).
Proof.
  induction evs as [| [s wr] evs IH];
    intros ts msg fuel rest more txs log el Hlen Hpass Hts.
  - destruct ts; [reflexivity | discriminate].
  - destruct ts as [| t ts]; [discriminate |].
    inversion Hts as [| ? ? Ht Hts']; subst.
    cbn [length Nat.add waitBoot_loop app].
    pass_one Hpass Ht.
    apply IH; [now inversion Hlen | assumption | assumption].
Qed.

Lemma sdoWrite_loop_pass (nodeId index subIndex start : Z)
    (evs : list (Z * option co_msg_t)) :
  forall (ts : list Z) (msg : co_msg_t) (fuel : nat) rest more txs log el,
    length ts = length evs ->
    passed_over (isSDOResponse nodeId index subIndex) msg evs = true ->
    Forall (fun t => elapsed start t < CO_TIMEOUT_SDO) ts ->
    sdoWrite_loop (bus_co c) nodeId index subIndex start (length evs + fuel) msg
      (mkBus (evs ++ rest) (ts ++ more) txs log el)
    = sdoWrite_loop (bus_co c) nodeId index subIndex start fuel
        (buffer_after_events evs msg) (mkBus rest more txs log el).
Proof.
  induction evs as [| [s wr] evs IH];
    intros ts msg fuel rest more txs log el Hlen Hpass Hts.
  - destruct ts; [reflexivity | discriminate].
  - destruct ts as [| t ts]; [discriminate |].
    inversion Hts as [| ? ? Ht Hts']; subst.
    cbn [length Nat.add sdoWrite_loop app].
    pass_one Hpass Ht.
    apply IH; [now inversion Hlen | assumption | assumption].
Qed.

Lemma sdoRead_loop_pass (nodeId index subIndex start nField value size : Z)
    (evs : list (Z * option co_msg_t)) :
  forall (ts : list Z) (msg : co_msg_t) (fuel : nat) rest more txs log el,
    length ts = length evs ->
    passed_over (isSDOReadResponse nodeId index subIndex nField) msg evs = true ->
    Forall (fun t => elapsed start t < CO_TIMEOUT_SDO) ts ->
    sdoRead_loop (bus_co c) nodeId index subIndex start nField value size
      (length evs + fuel) msg
      (mkBus (evs ++ rest) (ts ++ more) txs log el)
    = sdoRead_loop (bus_co c) nodeId index subIndex start nField value size fuel
        (buffer_after_events evs msg) (mkBus rest more txs log el).
Proof.
  induction evs as [| [s wr] evs IH];
    intros ts msg fuel rest more txs log el Hlen Hpass Hts.
  - destruct ts; [reflexivity | discriminate].
  - destruct ts as [| t ts]; [discriminate |].
    inversion Hts as [| ? ? Ht Hts']; subst.
    cbn [length Nat.add sdoRead_loop app].
    pass_one Hpass Ht.
    apply IH; [now inversion Hlen | assumption | assumption].
Qed.

End PassingOver.

Section BusCalls.

Variable c : Z.

(** The blocking calls on the scripted bus up to their first poll. *)
Lemma coNMTWaitBoot_start (fuel : nat) (msg0 : co_msg_t) (nodeId t0 : Z)
    rxs clk txs log el :
  1 <= nodeId <= 127 ->
  coNMTWaitBoot (bus_co c) fuel msg0 nodeId (mkBus rxs (t0 :: clk) txs log el)
  = waitBoot_loop (bus_co c) nodeId t0 fuel msg0 (mkBus rxs clk txs log el).
Proof.
  intros Hn. unfold coNMTWaitBoot.
  rewrite assert_holds by (apply in_range_b; lia).
  reflexivity.
Qed.

Lemma coSDOWrite_start (fuel : nat) (nodeId index subIndex value size t0 : Z)
    rxs clk log el :
  1 <= nodeId <= 127 -> 1 <= size <= 4 ->
  coSDOWrite (bus_co c) fuel nodeId index subIndex value size
    (mkBus rxs (t0 :: clk) [] log el)
  = sdoWrite_loop (bus_co c) nodeId index subIndex t0 fuel
      (sdoWriteRequest nodeId index subIndex value size)
      (mkBus rxs clk [] (log ++ [sdoWriteRequest nodeId index subIndex value size]) el).
Proof.
  intros Hn Hs. unfold coSDOWrite.
  rewrite assert_holds by (apply in_range_b; lia).
  rewrite assert_holds by (apply in_range_b; lia).
  reflexivity.
Qed.

Lemma coSDORead_start (fuel : nat) (nodeId index subIndex value size t0 : Z)
    rxs clk log el :
  1 <= nodeId <= 127 -> 1 <= size <= 4 ->
  coSDORead (bus_co c) fuel nodeId index subIndex value size
    (mkBus rxs (t0 :: clk) [] log el)
  = sdoRead_loop (bus_co c) nodeId index subIndex t0
      (to_u8 (Z.shiftl (4 - size) 2)) value size fuel
      (sdoReadRequest nodeId index subIndex)
      (mkBus rxs clk [] (log ++ [sdoReadRequest nodeId index subIndex]) el).
Proof.
  intros Hn Hs. unfold coSDORead.
  rewrite assert_holds by (apply in_range_b; lia).
  rewrite assert_holds by (apply in_range_b; lia).
  reflexivity.
Qed.

End BusCalls.

(** A send error ends an SDO call at once: when [tx] reports a status other
    than 0 for the request, [coSDOWrite] and [coSDORead] return that status,
    converted to [uint32_t] and so still not 0, without reading the clock
    or polling [rx]; the value behind [data] is untouched. *)
Theorem sdo_send_error :
  forall (W : Type) (co : co_t W) (fuel : nat)
         (nodeId index subIndex value size : Z) (w w1 w2 : W) (s1 s2 : Z),
    1 <= nodeId <= 127 -> 1 <= size <= 4 ->
    tx co (sdoWriteRequest nodeId index subIndex value size) w = (s1, w1) ->
    tx co (sdoReadRequest nodeId index subIndex) w = (s2, w2) ->
    - 2 ^ 31 <= s1 < 2 ^ 31 -> s1 <> 0 ->
    - 2 ^ 31 <= s2 < 2 ^ 31 -> s2 <> 0 ->
    coSDOWrite co fuel nodeId index subIndex value size w = (Ret (to_u32 s1), w1)
    /\ coSDORead co fuel nodeId index subIndex value size w
       = (Ret (to_u32 s2, value), w2)
    /\ to_u32 s1 <> 0 /\ to_u32 s2 <> 0.
Proof.
  intros W co fuel nodeId index subIndex value size w w1 w2 s1 s2
         Hn Hs Htx1 Htx2 Hr1 Hs1 Hr2 Hs2.
  assert (Hnz : forall s, - 2 ^ 31 <= s < 2 ^ 31 -> s <> 0 -> to_u32 s <> 0).
  { intros s Hr Hne. unfold to_u32.
    destruct (Z.lt_ge_cases s 0).
    - replace s with (s + 2 ^ 32 - 1 * 2 ^ 32) by lia.
      rewrite Zminus_mod, Z_mod_mult, Z.sub_0_r, Z.mod_mod by lia.
      rewrite Z.mod_small; lia.
    - rewrite Z.mod_small; lia. }
  repeat split; try (now apply Hnz).
  - unfold coSDOWrite.
    rewrite assert_holds by (apply in_range_b; lia).
    rewrite assert_holds by (apply in_range_b; lia).
    unfold bind, call. rewrite Htx1. rewrite (Z.eqb_sym 0 s1).
    destruct (Z.eqb_spec s1 0); [congruence | reflexivity].
  - unfold coSDORead.
    rewrite assert_holds by (apply in_range_b; lia).
    rewrite assert_holds by (apply in_range_b; lia).
    unfold bind, call. rewrite Htx2. rewrite (Z.eqb_sym 0 s2).
    destruct (Z.eqb_spec s2 0); [congruence | reflexivity].
Qed.

(** The SDO calls of the example, whose [canTx] reports -1. *)
Lemma sdo_send_error_example :
  (1 <= CAN_ID <= 127 /\ 1 <= 4 <= 4 /\
   - 2 ^ 31 <= -1 < 2 ^ 31 /\ -1 <> 0) /\
  coSDOWrite example_co 0 CAN_ID 0x1800 0x01 0xc00001ff 4 tt
  = (Ret 0xFFFFFFFF, tt)
  /\ coSDORead example_co 0 CAN_ID 0x1018 0x01 0 4 tt
     = (Ret (0xFFFFFFFF, 0), tt).
Proof.
  split.
  - unfold CAN_ID. repeat split; lia.
  - split.
    + apply (sdo_send_error unit example_co 0 CAN_ID 0x1800 0x01 0xc00001ff 4
               tt tt tt (-1) (-1));
        unfold CAN_ID; try lia; reflexivity.
    + apply (sdo_send_error unit example_co 0 CAN_ID 0x1018 0x01 0 4
               tt tt tt (-1) (-1));
        unfold CAN_ID; try lia; reflexivity.
Defined.

(** A receive error ends a blocking call at once.  After any polls that
    were passed over within the bound, a poll at which [rx] reports -1 ends
    [coNMTWaitBoot] with -1 and the SDO calls with (uint32_t)-1, whatever
    [rx] left in the buffer and without a further reading of the clock;
    the value behind [data] of [coSDORead] is untouched. *)
Theorem receive_error_ends_call :
  forall (c : Z) (fuel : nat) (msg0 : co_msg_t)
         (nodeId index subIndex value size : Z)
         (evs : list (Z * option co_msg_t)) (wr : option co_msg_t)
         (t0 : Z) (ts : list Z) rest more log el,
    1 <= nodeId <= 127 -> 1 <= size <= 4 ->
    length ts = length evs ->
    Forall (fun t => elapsed t0 t < CO_TIMEOUT_SDO) ts ->
    passed_over (isBootUp nodeId) msg0 evs = true ->
    passed_over (isSDOResponse nodeId index subIndex)
      (sdoWriteRequest nodeId index subIndex value size) evs = true ->
    passed_over (isSDOReadResponse nodeId index subIndex
                   (to_u8 (Z.shiftl (4 - size) 2)))
      (sdoReadRequest nodeId index subIndex) evs = true ->
    (length evs < fuel)%nat ->
    let b := mkBus (evs ++ (-1, wr) :: rest) (t0 :: ts ++ more) [] log el in
    coNMTWaitBoot (bus_co c) fuel msg0 nodeId b
    = (Ret (-1), mkBus rest more [] log el)
    /\ coSDOWrite (bus_co c) fuel nodeId index subIndex value size b
       = (Ret 0xFFFFFFFF,
          mkBus rest more []
            (log ++ [sdoWriteRequest nodeId index subIndex value size]) el)
    /\ coSDORead (bus_co c) fuel nodeId index subIndex value size b
       = (Ret (0xFFFFFFFF, value),
          mkBus rest more [] (log ++ [sdoReadRequest nodeId index subIndex]) el).
Proof.
  intros c fuel msg0 nodeId index subIndex value size evs wr t0 ts rest more
         log el Hn Hs Hlen Hts Hboot Hwrite Hread Hfuel b.
  assert (Hts' : Forall (fun t => elapsed t0 t < CO_TIMEOUT_NMT) ts).
  { apply (Forall_impl _ (P := fun t => elapsed t0 t < CO_TIMEOUT_SDO));
      [| assumption].
    intros t Ht. unfold CO_TIMEOUT_SDO, CO_TIMEOUT_NMT in *. lia. }
  unfold b.
  replace fuel with (length evs + S (fuel - S (length evs)))%nat by lia.
  split; [| split].
  - rewrite coNMTWaitBoot_start by assumption.
    rewrite waitBoot_loop_pass by assumption. reflexivity.
  - rewrite coSDOWrite_start by assumption.
    rewrite sdoWrite_loop_pass by assumption. reflexivity.
  - rewrite coSDORead_start by assumption.
    rewrite sdoRead_loop_pass by assumption. reflexivity.
Qed.

(** Two polls without data, then the driver fails. *)
Lemma receive_error_ends_call_run :
  let evs := [(1, None); (1, None)] in
  (1 <= 5 <= 127 /\ 1 <= 2 <= 4 /\
   length [10; 20] = length evs /\
   Forall (fun t => elapsed 0 t < CO_TIMEOUT_SDO) [10; 20] /\
   (length evs < 3)%nat) /\
  coNMTWaitBoot (bus_co 0) 3 (mkMsg 0 0 [0; 0; 0; 0; 0; 0; 0; 0]) 5
    (mkBus (evs ++ (-1, None) :: []) (0 :: [10; 20] ++ []) [] [] [])
  = (Ret (-1), mkBus [] [] [] [] [])
  /\ coSDOWrite (bus_co 0) 3 5 0x1A00 1 0xBEEF 2
       (mkBus (evs ++ (-1, None) :: []) (0 :: [10; 20] ++ []) [] [] [])
     = (Ret 0xFFFFFFFF, mkBus [] [] [] [sdoWriteRequest 5 0x1A00 1 0xBEEF 2] [])
  /\ coSDORead (bus_co 0) 3 5 0x1A00 1 0xBEEF 2
       (mkBus (evs ++ (-1, None) :: []) (0 :: [10; 20] ++ []) [] [] [])
     = (Ret (0xFFFFFFFF, 0xBEEF), mkBus [] [] [] [sdoReadRequest 5 0x1A00 1] []).
Proof.
  cbv zeta. split.
  - repeat split; try lia; try reflexivity; repeat constructor; cbv; congruence.
  - apply (receive_error_ends_call 0 3 (mkMsg 0 0 [0; 0; 0; 0; 0; 0; 0; 0])
             5 0x1A00 1 0xBEEF 2 [(1, None); (1, None)] None 0 [10; 20]
             [] [] [] []);
      try lia; try reflexivity; repeat constructor; cbv; congruence.
Defined.

(** Timeout of the SDO calls.  When every poll up to the first reading of
    the clock that is [CO_TIMEOUT_SDO] or more after the start is passed
    over, be it without data or with frames that are not the response, the
    calls return (uint32_t)-1 at that reading, having sent their request
    once; the value behind [data] of [coSDORead] is untouched. *)
Theorem sdo_calls_time_out :
  forall (c : Z) (fuel : nat) (nodeId index subIndex value size : Z)
         (evs : list (Z * option co_msg_t)) (ev : Z * option co_msg_t)
         (t0 : Z) (ts : list Z) (t : Z) rest more log el,
    1 <= nodeId <= 127 -> 1 <= size <= 4 ->
    length ts = length evs ->
    Forall (fun u => elapsed t0 u < CO_TIMEOUT_SDO) ts ->
    CO_TIMEOUT_SDO <= elapsed t0 t <= 2 ^ 31 ->
    passed_over (isSDOResponse nodeId index subIndex)
      (sdoWriteRequest nodeId index subIndex value size) (evs ++ [ev]) = true ->
    passed_over (isSDOReadResponse nodeId index subIndex
                   (to_u8 (Z.shiftl (4 - size) 2)))
      (sdoReadRequest nodeId index subIndex) (evs ++ [ev]) = true ->
    (length evs < fuel)%nat ->
    let b := mkBus (evs ++ ev :: rest) (t0 :: ts ++ t :: more) [] log el in
    coSDOWrite (bus_co c) fuel nodeId index subIndex value size b
    = (Ret 0xFFFFFFFF,
       mkBus rest more []
         (log ++ [sdoWriteRequest nodeId index subIndex value size]) el)
    /\ coSDORead (bus_co c) fuel nodeId index subIndex value size b
       = (Ret (0xFFFFFFFF, value),
          mkBus rest more [] (log ++ [sdoReadRequest nodeId index subIndex]) el).
Proof.
  intros c fuel nodeId index subIndex value size evs [s wr] t0 ts t rest more
         log el Hn Hs Hlen Hts Ht Hwrite Hread Hfuel b.
  rewrite passed_over_app, andb_true_iff in Hwrite, Hread.
  destruct Hwrite as [Hw Hw1]. destruct Hread as [Hr Hr1].
  apply passed_over_cons in Hw1. destruct Hw1 as (Hsw & Htw & _).
  apply passed_over_cons in Hr1. destruct Hr1 as (Hsr & Htr & _).
  unfold b.
  replace fuel with (length evs + S (fuel - S (length evs)))%nat by lia.
  split.
  - rewrite coSDOWrite_start by assumption.
    rewrite sdoWrite_loop_pass by assumption.
    cbn [sdoWrite_loop]. unfold bind at 1, call at 1.
    cbn [rx bus_co bus_rx rx_pending clock tx_status tx_log emcy_log].
    rewrite Hsw, Htw. unfold bind.
    rewrite haveTimeout_expired by (assumption || (cbv; reflexivity)).
    reflexivity.
  - rewrite coSDORead_start by assumption.
    rewrite sdoRead_loop_pass by assumption.
    cbn [sdoRead_loop]. unfold bind at 1, call at 1.
    cbn [rx bus_co bus_rx rx_pending clock tx_status tx_log emcy_log].
    rewrite Hsr, Htr. unfold bind.
    rewrite haveTimeout_expired by (assumption || (cbv; reflexivity)).
    reflexivity.
Qed.

(** A silent bus polled at 400 ms, 800 ms and 1200 ms after the start. *)
Lemma sdo_calls_time_out_silence :
  let evs := [(1, None); (1, None)] in
  (1 <= 5 <= 127 /\ 1 <= 2 <= 4 /\
   length [500; 900] = length evs /\
   Forall (fun u => elapsed 100 u < CO_TIMEOUT_SDO) [500; 900] /\
   CO_TIMEOUT_SDO <= elapsed 100 1300 <= 2 ^ 31 /\
   (length evs < 3)%nat) /\
  coSDOWrite (bus_co 0) 3 5 0x1A00 1 0xBEEF 2
    (mkBus (evs ++ (1, None) :: []) (100 :: [500; 900] ++ 1300 :: []) [] [] [])
  = (Ret 0xFFFFFFFF, mkBus [] [] [] [sdoWriteRequest 5 0x1A00 1 0xBEEF 2] [])
  /\ coSDORead (bus_co 0) 3 5 0x1A00 1 0xBEEF 2
       (mkBus (evs ++ (1, None) :: []) (100 :: [500; 900] ++ 1300 :: []) [] [] [])
     = (Ret (0xFFFFFFFF, 0xBEEF), mkBus [] [] [] [sdoReadRequest 5 0x1A00 1] []).
Proof.
  cbv zeta. split.
  - repeat split; try lia; try reflexivity; repeat constructor; cbv; congruence.
  - apply (sdo_calls_time_out 0 3 5 0x1A00 1 0xBEEF 2
             [(1, None); (1, None)] (1, None) 100 [500; 900] 1300
             [] [] [] []);
      try lia; try reflexivity; repeat constructor; cbv; congruence.
Defined.

(** Timeout of the boot-up wait.  When every poll up to the first reading
    of the clock that is [CO_TIMEOUT_NMT] or more after the start is passed
    over, without data or with frames that are not the boot-up of the node,
    [coNMTWaitBoot] returns -1 at that reading. *)
Theorem coNMTWaitBoot_times_out :
  forall (c : Z) (fuel : nat) (msg0 : co_msg_t) (nodeId : Z)
         (evs : list (Z * option co_msg_t)) (ev : Z * option co_msg_t)
         (t0 : Z) (ts : list Z) (t : Z) rest more txs log el,
    1 <= nodeId <= 127 ->
    length ts = length evs ->
    Forall (fun u => elapsed t0 u < CO_TIMEOUT_NMT) ts ->
    CO_TIMEOUT_NMT <= elapsed t0 t <= 2 ^ 31 ->
    passed_over (isBootUp nodeId) msg0 (evs ++ [ev]) = true ->
    (length evs < fuel)%nat ->
    coNMTWaitBoot (bus_co c) fuel msg0 nodeId
      (mkBus (evs ++ ev :: rest) (t0 :: ts ++ t :: more) txs log el)
    = (Ret (-1), mkBus rest more txs log el).
Proof.
  intros c fuel msg0 nodeId evs [s wr] t0 ts t rest more txs log el
         Hn Hlen Hts Ht Hpass Hfuel.
  rewrite passed_over_app, andb_true_iff in Hpass.
  destruct Hpass as [Hp Hp1].
  apply passed_over_cons in Hp1. destruct Hp1 as (Hs & Htest & _).
  replace fuel with (length evs + S (fuel - S (length evs)))%nat by lia.
  rewrite coNMTWaitBoot_start by assumption.
  rewrite waitBoot_loop_pass by assumption.
  cbn [waitBoot_loop]. unfold bind at 1, call at 1.
  cbn [rx bus_co bus_rx rx_pending clock tx_status tx_log emcy_log].
  rewrite Hs, Htest. unfold bind.
  rewrite haveTimeout_expired by (assumption || (cbv; reflexivity)).
  reflexivity.
Qed.

(** A silent bus polled every second, the buffer holding no boot-up. *)
Lemma coNMTWaitBoot_times_out_silence :
  let evs := [(1, None); (1, None)] in
  (1 <= 5 <= 127 /\
   length [1000; 2000] = length evs /\
   Forall (fun u => elapsed 0 u < CO_TIMEOUT_NMT) [1000; 2000] /\
   CO_TIMEOUT_NMT <= elapsed 0 3000 <= 2 ^ 31 /\
   (length evs < 3)%nat) /\
  coNMTWaitBoot (bus_co 0) 3 (mkMsg 0 0 [0; 0; 0; 0; 0; 0; 0; 0]) 5
    (mkBus (evs ++ (1, None) :: []) (0 :: [1000; 2000] ++ 3000 :: []) [] [] [])
  = (Ret (-1), mkBus [] [] [] [] []).
Proof.
  cbv zeta. split.
  - repeat split; try lia; try reflexivity; repeat constructor; cbv; congruence.
  - apply (coNMTWaitBoot_times_out 0 3 (mkMsg 0 0 [0; 0; 0; 0; 0; 0; 0; 0]) 5
             [(1, None); (1, None)] (1, None) 0 [1000; 2000] 3000
             [] [] [] [] []);
      try lia; try reflexivity; repeat constructor; cbv; congruence.
Defined.

(** ** A clock that stands still *)

(** The timeout needs the clock to move.  With callbacks that keep no
    state, an [rx] that always reports a status other than -1 and leaves
    the frame alone and a clock that always reads the same value,
    [coNMTWaitBoot] never returns unless its uninitialised buffer happens to
    hold the boot-up frame: however many polls are granted, it is still
    polling.  These are the stubs of example.c. *)
Theorem coNMTWaitBoot_never_returns :
  forall (W : Type) (co : co_t W) (msg0 : co_msg_t) (nodeId s t : Z) (w : W),
    1 <= nodeId <= 127 ->
    s <> -1 ->
    (forall msg, rx co msg w = ((s, msg), w)) ->
    ms co w = (t, w) ->
    isBootUp nodeId msg0 = false ->
    forall fuel : nat,
      coNMTWaitBoot co fuel msg0 nodeId w = (Stop OutOfFuel, w).
Proof.
  intros W co msg0 nodeId s t w Hn Hs Hrx Hms Hmsg fuel.
  unfold coNMTWaitBoot.
  rewrite assert_holds by (apply in_range_b; lia).
  unfold bind at 1, call at 1. rewrite Hms.
  induction fuel as [| fuel IH]; [reflexivity |].
  cbn [waitBoot_loop]. unfold bind at 1, call at 1. rewrite Hrx.
  replace (s =? -1) with false by (symmetry; now apply Z.eqb_neq).
  rewrite Hmsg. unfold bind.
  rewrite (haveTimeout_run co t CO_TIMEOUT_NMT t w w Hms) by (cbv; reflexivity).
  unfold elapsed. rewrite Z.sub_diag. exact IH.
Qed.

(** The boot-up wait of the example, for 1000 polls. *)
Lemma coNMTWaitBoot_never_returns_example :
  (1 <= CAN_ID <= 127 /\ 1 <> -1 /\
   isBootUp CAN_ID (mkMsg 0 0 [0; 0; 0; 0; 0; 0; 0; 0]) = false) /\
  coNMTWaitBoot example_co 1000 (mkMsg 0 0 [0; 0; 0; 0; 0; 0; 0; 0]) CAN_ID tt
  = (Stop OutOfFuel, tt).
Proof.
  split.
  - unfold CAN_ID. repeat split; try lia; reflexivity.
  - apply (coNMTWaitBoot_never_returns unit example_co
             (mkMsg 0 0 [0; 0; 0; 0; 0; 0; 0; 0]) CAN_ID 1 0 tt);
      unfold CAN_ID; try lia; reflexivity.
Defined.

(** ** The timeout check read both ways *)

Lemma elapsed_swap (a b : Z) :
  (if elapsed a b <=? 2 ^ 31 then elapsed a b else 2 ^ 32 - elapsed a b)
  = (if elapsed b a <=? 2 ^ 31 then elapsed b a else 2 ^ 32 - elapsed b a).
Proof.
  unfold elapsed.
  pose proof (Z.mod_pos_bound (b - a) (2 ^ 32) ltac:(lia)) as H1.
  pose proof (Z.mod_pos_bound (a - b) (2 ^ 32) ltac:(lia)) as H2.
  assert (Hsum : ((b - a) mod 2 ^ 32 + (a - b) mod 2 ^ 32) mod 2 ^ 32 = 0).
  { rewrite <- Zplus_mod. replace (b - a + (a - b)) with 0 by lia. reflexivity. }
  set (x := (b - a) mod 2 ^ 32) in *. set (y := (a - b) mod 2 ^ 32) in *.
  assert (Hxy : x + y = 0 \/ x + y = 2 ^ 32).
  { destruct (Z.lt_ge_cases (x + y) (2 ^ 32)) as [Hlt | Hge].
    - left. rewrite Z.mod_small in Hsum; lia.
    - right. replace (x + y) with (x + y - 2 ^ 32 + 1 * 2 ^ 32) in Hsum by lia.
      rewrite Z_mod_plus_full, Z.mod_small in Hsum; lia. }
  destruct (Z.leb_spec x (2 ^ 31)); destruct (Z.leb_spec y (2 ^ 31)); lia.
Qed.

(** [haveTimeout] measures a distance, not a direction: the verdict for a
    reading [b] against the start [a] is the verdict for the reading [a]
    against the start [b].  A clock reading that lies before the start
    counts as time elapsed. *)
Theorem haveTimeout_symmetric :
  forall (W : Type) (co : co_t W) (a b bound : Z) (w w' v v' : W),
    ms co w = (b, w') ->
    ms co v = (a, v') ->
    0 <= bound < 2 ^ 31 - 1 ->
    fst (haveTimeout co a bound w) = fst (haveTimeout co b bound v).
Proof.
  intros W co a b bound w w' v v' Hw Hv Hb.
  rewrite (haveTimeout_run co a bound b w w' Hw) by lia.
  rewrite (haveTimeout_run co b bound a v v' Hv) by lia.
  cbn [fst]. now rewrite elapsed_swap.
Qed.

(** 1500 ms after the start and 1500 ms before it both exceed 1000 ms. *)
Lemma haveTimeout_symmetric_run :
  0 <= CO_TIMEOUT_SDO < 2 ^ 31 - 1 /\
  fst (haveTimeout (bus_co 0) 2000 CO_TIMEOUT_SDO (idle_bus [] [3500])) = Ret (-1) /\
  fst (haveTimeout (bus_co 0) 3500 CO_TIMEOUT_SDO (idle_bus [] [2000])) = Ret (-1) /\
  fst (haveTimeout (bus_co 0) 2000 CO_TIMEOUT_SDO (idle_bus [] [3500]))
  = fst (haveTimeout (bus_co 0) 3500 CO_TIMEOUT_SDO (idle_bus [] [2000])).
Proof.
  split; [unfold CO_TIMEOUT_SDO; lia |].
  split; [reflexivity |]. split; [reflexivity |].
  apply (haveTimeout_symmetric bus (bus_co 0) 2000 3500 CO_TIMEOUT_SDO
           (idle_bus [] [3500]) (idle_bus [] [])
           (idle_bus [] [2000]) (idle_bus [] []));
    [reflexivity | reflexivity | unfold CO_TIMEOUT_SDO; lia].
Defined.

(** ** SDO requests and responses *)

(** The request frames are on the channel 0x600 + node: neither passes a
    response test or the boot-up test, for whichever node, index and
    subindex.  So the request that an SDO call leaves in its buffer is not
    taken for the response on polls at which [rx] reports no data and
    leaves the buffer alone: any number of such polls is passed over. *)
Theorem own_request_is_no_response :
  forall (nodeId index subIndex value size peer index' subIndex' nField : Z)
         (n : nat),
    1 <= nodeId <= 127 ->
    let wreq := sdoWriteRequest nodeId index subIndex value size in
    let rreq := sdoReadRequest nodeId index subIndex in
    isSDOResponse peer index' subIndex' wreq = false
    /\ isSDOReadResponse peer index' subIndex' nField rreq = false
    /\ isBootUp peer wreq = false /\ isBootUp peer rreq = false
    /\ passed_over (isSDOResponse peer index' subIndex') wreq
         (repeat (1, None) n) = true
    /\ passed_over (isSDOReadResponse peer index' subIndex' nField) rreq
         (repeat (1, None) n) = true.
Proof.
  intros nodeId index subIndex value size peer index' subIndex' nField n Hn
         wreq rreq.
  assert (Hw : getCOBIDType wreq = COB_ID_RSDO).
  { unfold wreq, sdoWriteRequest. cbv zeta.
    change (COB_ID_RSDO + nodeId) with (128 * 12 + nodeId).
    match goal with
    | |- context [mkMsg _ ?l ?d] =>
        destruct (classify_base_node 12 nodeId l d) as (Ht & _); try lia
    end.
    exact Ht. }
  assert (Hr : getCOBIDType rreq = COB_ID_RSDO).
  { unfold rreq, sdoReadRequest.
    change (COB_ID_RSDO + nodeId) with (128 * 12 + nodeId).
    match goal with
    | |- context [mkMsg _ ?l ?d] =>
        destruct (classify_base_node 12 nodeId l d) as (Ht & _); try lia
    end.
    exact Ht. }
  assert (H1 : isSDOResponse peer index' subIndex' wreq = false).
  { unfold isSDOResponse. rewrite Hw. reflexivity. }
  assert (H2 : isSDOReadResponse peer index' subIndex' nField rreq = false).
  { unfold isSDOReadResponse, isSDOResponse. rewrite Hr. reflexivity. }
  repeat split; try assumption.
  - unfold isBootUp. rewrite Hw. reflexivity.
  - unfold isBootUp. rewrite Hr. reflexivity.
  - induction n as [| n IH]; [reflexivity |].
    cbn [repeat passed_over buffer_on fst snd Z.eqb negb andb].
    now rewrite H1.
  - induction n as [| n IH]; [reflexivity |].
    cbn [repeat passed_over buffer_on fst snd Z.eqb negb andb].
    now rewrite H2.
Qed.

(** The request for 0x1A00.1 of node 5 against the tests for node 5. *)
Lemma own_request_is_no_response_node5 :
  1 <= 5 <= 127 /\
  isSDOResponse 5 0x1A00 1 (sdoWriteRequest 5 0x1A00 1 0xBEEF 2) = false
  /\ isSDOReadResponse 5 0x1A00 1 8 (sdoReadRequest 5 0x1A00 1) = false
  /\ isBootUp 5 (sdoWriteRequest 5 0x1A00 1 0xBEEF 2) = false
  /\ isBootUp 5 (sdoReadRequest 5 0x1A00 1) = false
  /\ passed_over (isSDOResponse 5 0x1A00 1) (sdoWriteRequest 5 0x1A00 1 0xBEEF 2)
       (repeat (1, None) 3) = true
  /\ passed_over (isSDOReadResponse 5 0x1A00 1 8) (sdoReadRequest 5 0x1A00 1)
       (repeat (1, None) 3) = true.
Proof.
  split; [lia |].
  apply (own_request_is_no_response 5 0x1A00 1 0xBEEF 2 5 0x1A00 1 8 3). lia.
Defined.

(** Which frame on a response channel answers a request.  A frame with
    identifier 0x580 + peer passes the response test of an SDO call for
    [nodeId], [index], [subIndex] exactly when the peer is that node, the
    length is 8, bytes 1 and 2 are the index low and high byte and byte 3 is
    the subindex; the command specifier and the data bytes do not matter. *)
Theorem sdo_response_correlation :
  forall (nodeId peer index subIndex l cs b1 b2 b3 d4 d5 d6 d7 : Z),
    1 <= nodeId <= 127 -> 1 <= peer <= 127 ->
    is_u16 index ->
    isSDOResponse nodeId index subIndex
      (mkMsg (0x580 + peer) l [cs; b1; b2; b3; d4; d5; d6; d7]) = true
    <->
    peer = nodeId /\ l = 8
    /\ b1 = index mod 256 /\ b2 = index / 256 /\ b3 = subIndex.
Proof.
  intros nodeId peer index subIndex l cs b1 b2 b3 d4 d5 d6 d7 Hn Hp Hi.
  unfold is_u16 in Hi.
  unfold isSDOResponse, getCOBIDType, getNodeId, byte_at.
  cbn [cobId len data nth].
  change (0x580 + peer) with (128 * 11 + peer).
  rewrite land_0x780_base by lia.
  rewrite land_0x7f, Z.add_comm, Z.mul_comm, Z.mod_add, Z.mod_small by lia.
  rewrite to_u8_small by lia.
  rewrite !land_0xff, shiftr_8.
  rewrite (Z.mod_small (index / 256))
    by (split; [apply Z.div_pos; lia | apply Z.div_lt_upper_bound; lia]).
  rewrite !andb_true_iff, !Z.eqb_eq. unfold COB_ID_TSDO. intuition lia.
Qed.

(** The acknowledgement of node 5 for a write to 0x1A00.1. *)
Lemma sdo_response_correlation_ack :
  (1 <= 5 <= 127 /\ is_u16 0x1A00) /\
  (isSDOResponse 5 0x1A00 1 (mkMsg (0x580 + 5) 8 [0x60; 0x00; 0x1A; 1; 0; 0; 0; 0])
   = true
   <->
   5 = 5 /\ 8 = 8 /\ 0x00 = 0x1A00 mod 256 /\ 0x1A = 0x1A00 / 256 /\ 1 = 1).
Proof.
  split; [unfold is_u16; lia |].
  apply (sdo_response_correlation 5 5 0x1A00 1 8 0x60 0x00 0x1A 1 0 0 0 0);
    unfold is_u16; lia.
Defined.

(** ** Values on the wire *)

Lemma le_value_range (n : nat) :
  forall bs : list Z,
    Forall is_u8 bs -> 0 <= le_value n bs < 256 ^ Z.of_nat n.
Proof.
  induction n as [| n IH]; intros bs Hbs.
  - cbn. lia.
  - destruct bs as [| b bs]; [cbn [le_value]; lia |].
    inversion Hbs as [| ? ? Hb Hbs']; subst. unfold is_u8 in Hb.
    specialize (IH bs Hbs'). cbn [le_value].
    rewrite Nat2Z.inj_succ, Z.pow_succ_r by lia. lia.
Qed.

(** The four data bytes of a write request, least significant first, are
    the value. *)
Lemma le_value_32 (v : Z) :
  0 <= v < 2 ^ 32 ->
  le_value 4 [v mod 256; (v / 256) mod 256; (v / 65536) mod 256;
              (v / 16777216) mod 256] = v.
Proof.
  intros Hv. cbn [le_value].
  assert (H3 : v / 16777216 < 256) by (apply Z.div_lt_upper_bound; lia).
  assert (H3' : 0 <= v / 16777216) by (apply Z.div_pos; lia).
  rewrite (Z.mod_small (v / 16777216)) by lia.
  pose proof (Z.div_mod v 256 ltac:(lia)) as E0.
  pose proof (Z.div_mod (v / 256) 256 ltac:(lia)) as E1.
  pose proof (Z.div_mod (v / 65536) 256 ltac:(lia)) as E2.
  rewrite Z.div_div in E1, E2 by lia.
  change (256 * 256) with 65536 in E1. change (65536 * 256) with 16777216 in E2.
  lia.
Qed.

(** Write and read agree on the value.  The value that [coSDORead] takes
    out of a frame carrying the data bytes of the write request of
    [coSDOWrite], for the same byte count, is the value written, cut to that
    many bytes; it is the value itself when it fits. *)
Theorem sdo_value_round_trip :
  forall (nodeId index subIndex value size : Z),
    is_u32 value -> 1 <= size <= 4 ->
    sdoReadValue (sdoWriteRequest nodeId index subIndex value size) size
    = value mod 256 ^ size.
Proof.
  intros nodeId index subIndex value size Hv Hs. unfold is_u32 in Hv.
  unfold sdoWriteRequest. cbv zeta. cbn [data8 firstn app repeat].
  rewrite !land_0xff, !Z.shiftr_div_pow2 by lia.
  change (2 ^ 8) with 256. change (2 ^ 16) with 65536.
  change (2 ^ 24) with 16777216.
  pose proof (le_value_32 value Hv) as H32. cbn [le_value] in H32.
  pose proof (Z.mod_pos_bound value 256 ltac:(lia)) as B0.
  pose proof (Z.mod_pos_bound (value / 256) 256 ltac:(lia)) as B1.
  pose proof (Z.mod_pos_bound (value / 65536) 256 ltac:(lia)) as B2.
  pose proof (Z.mod_pos_bound (value / 16777216) 256 ltac:(lia)) as B3.
  assert (Hc : size = 1 \/ size = 2 \/ size = 3 \/ size = 4) by lia.
  destruct Hc as [-> | [-> | [-> | ->]]];
    cbn [Z.ltb Z.compare Pos.compare Pos.compare_cont];
    rewrite sdoReadValue_le by (unfold is_u8; lia);
    cbv [Z.to_nat Pos.to_nat Pos.iter_op Nat.add le_value].
  - change (256 ^ 1) with 256. lia.
  - change (256 ^ 2) with (256 * 256).
    rewrite (Z.rem_mul_r value 256 256) by lia. lia.
  - change (256 ^ 3) with (256 * (256 * 256)).
    rewrite (Z.rem_mul_r value 256 (256 * 256)) by lia.
    rewrite (Z.rem_mul_r (value / 256) 256 256) by lia.
    rewrite Z.div_div by lia. change (256 * 256) with 65536. lia.
  - change (256 ^ 4) with (2 ^ 32). rewrite (Z.mod_small value (2 ^ 32)) by lia.
    exact H32.
Qed.

(** 0x12345678 written as two bytes reads back as 0x5678. *)
Lemma sdo_value_round_trip_u16 :
  (is_u32 0x12345678 /\ 1 <= 2 <= 4) /\
  sdoReadValue (sdoWriteRequest 5 0x1A00 1 0x12345678 2) 2 = 0x5678.
Proof.
  split; [unfold is_u32; lia |].
  apply (sdo_value_round_trip 5 0x1A00 1 0x12345678 2); unfold is_u32; lia.
Defined.

(** What [coSDORead] makes of the frame that passes its test.  For the
    status nibbles 0x4 and 0x6 it returns 0 and stores the little-endian
    value of the first [size] data bytes, a value below 256^size whatever
    the remaining data bytes are; for every other status nibble it returns
    (uint32_t)-1 and stores nothing.  Frames passed over before, within the
    bound, do not change this. *)
Theorem coSDORead_accepts :
  forall (c : Z) (fuel : nat) (nodeId index subIndex value size : Z)
         (pre : list co_msg_t) (t0 : Z) (ts : list Z)
         (id l cs i1 i2 sb b4 b5 b6 b7 : Z) rest more log el,
    1 <= nodeId <= 127 -> 1 <= size <= 4 ->
    Forall (fun f => isSDOReadResponse nodeId index subIndex
                       (to_u8 (Z.shiftl (4 - size) 2)) f = false) pre ->
    length ts = length pre ->
    Forall (fun t => elapsed t0 t < CO_TIMEOUT_SDO) ts ->
    isSDOReadResponse nodeId index subIndex (to_u8 (Z.shiftl (4 - size) 2))
      (mkMsg id l [cs; i1; i2; sb; b4; b5; b6; b7]) = true ->
    Forall is_u8 [cs; b4; b5; b6; b7] ->
    (length pre < fuel)%nat ->
    let v := le_value (Z.to_nat size) [b4; b5; b6; b7] in
    coSDORead (bus_co c) fuel nodeId index subIndex value size
      (mkBus (received pre ++ (0, Some (mkMsg id l [cs; i1; i2; sb; b4; b5; b6; b7]))
                :: rest)
         (t0 :: ts ++ more) [] log el)
    = (Ret (if (cs / 16 =? 0x4) || (cs / 16 =? 0x6)
            then (0, v) else (0xFFFFFFFF, value)),
       mkBus rest more [] (log ++ [sdoReadRequest nodeId index subIndex]) el)
    /\ 0 <= v < 256 ^ size.
Proof.
  intros c fuel nodeId index subIndex value size pre t0 ts
         id l cs i1 i2 sb b4 b5 b6 b7 rest more log el
         Hn Hs Hpre Hlen Hts Hm Hbytes Hfuel v.
  inversion Hbytes as [| ? ? Hcs Hb]; subst.
  assert (H4 : is_u8 b4) by (now inversion Hb).
  assert (H5 : is_u8 b5) by (inversion Hb as [| ? ? ? Hb1]; now inversion Hb1).
  assert (H6 : is_u8 b6) by (do 2 (inversion Hb as [| ? ? ? Hb']; clear Hb;
                                   rename Hb' into Hb); now inversion Hb).
  assert (H7 : is_u8 b7) by (do 3 (inversion Hb as [| ? ? ? Hb']; clear Hb;
                                   rename Hb' into Hb); now inversion Hb).
  split.
  - rewrite (coSDORead_verdict c fuel nodeId index subIndex value size pre
               (mkMsg id l [cs; i1; i2; sb; b4; b5; b6; b7]) t0 ts rest more log el)
      by assumption.
    rewrite sdoReadValue_le by assumption. reflexivity.
  - pose proof (le_value_range (Z.to_nat size) [b4; b5; b6; b7]) as Hr.
    rewrite Z2Nat.id in Hr by lia. exact (Hr Hb).
Qed.

(** Reading two bytes of 0x1A00.1 of node 5: the heartbeat of node 5 goes
    by, the response carries 0x1234 and two stray bytes. *)
Lemma coSDORead_accepts_u16 :
  let pre := [mkMsg 0x705 1 [5; 0; 0; 0; 0; 0; 0; 0]] in
  let m := mkMsg 0x585 8 [0x4B; 0x00; 0x1A; 0x01; 0x34; 0x12; 0xAA; 0xBB] in
  (1 <= 5 <= 127 /\ 1 <= 2 <= 4 /\
   length [10] = length pre /\
   Forall (fun t => elapsed 7 t < CO_TIMEOUT_SDO) [10] /\
   isSDOReadResponse 5 0x1A00 1 (to_u8 (Z.shiftl (4 - 2) 2)) m = true /\
   (length pre < 2)%nat) /\
  coSDORead (bus_co 0) 2 5 0x1A00 1 77 2
    (mkBus (received pre ++ (0, Some m) :: []) (7 :: [10] ++ []) [] [] [])
  = (Ret (0, 0x1234), mkBus [] [] [] [sdoReadRequest 5 0x1A00 1] []).
Proof.
  cbv zeta. split.
  - repeat split; try lia; try reflexivity; repeat constructor; cbv; congruence.
  - apply (coSDORead_accepts 0 2 5 0x1A00 1 77 2
             [mkMsg 0x705 1 [5; 0; 0; 0; 0; 0; 0; 0]] 7 [10]
             0x585 8 0x4B 0x00 0x1A 0x01 0x34 0x12 0xAA 0xBB [] [] [] []);
      try lia; try reflexivity;
      repeat constructor; unfold is_u8; try lia; cbv; congruence.
Defined.

(** ** SYNC in cyclic operation *)

(** [n] SYNCs in a row never stop on a fault and sends that fail do not
    stop them: call [k] returns the status [tx] reported for it, and a frame
    is handed to [tx] on every call.  With the counter feature the counter
    of the instance advances by one per call also when the send failed, to
    (c + n) mod 256, which is [c] again after 256 calls and 0 in between;
    without the feature every frame is the empty SYNC and the instance is
    left as it is. *)
Theorem sync_cycles_run :
  forall (enable : bool) (n : nat) (c : Z) (b : bus),
    0 <= c < 256 ->
    fst (sync_cycles enable n (bus_co c) b)
    = Ret (map (fun k => nth k (tx_status b) 0) (seq 0 n),
           bus_co (if enable then (c + Z.of_nat n) mod 256 else c))
    /\ tx_log (snd (sync_cycles enable n (bus_co c) b))
       = tx_log b
         ++ (if enable
             then map (fun k => mkMsg 0x080 1
                                  [(c + Z.of_nat k) mod 256; 0; 0; 0; 0; 0; 0; 0])
                      (seq 0 n)
             else repeat (mkMsg 0x080 0 [0; 0; 0; 0; 0; 0; 0; 0]) n).
Proof.
  intros enable n. induction n as [| n IH]; intros c b Hc.
  - destruct enable; cbn; rewrite app_nil_r; [| now split].
    rewrite Z.add_0_r, Z.mod_small by lia. now split.
  - set (c' := if enable then to_u8 (c + 1) else c).
    assert (Hc' : 0 <= c' < 256).
    { unfold c'. destruct enable; [| assumption].
      unfold to_u8. apply Z.mod_pos_bound. lia. }
    set (frame := if enable then sync_frame c
                  else mkMsg 0x080 0 [0; 0; 0; 0; 0; 0; 0; 0]).
    assert (Hstep : forall A (k : Z * co_t bus -> M bus A),
               (r <- coSYNC enable (bus_co c) ;; k r) b
               = k (nth 0 (tx_status b) 0, bus_co c')
                   (mkBus (rx_pending b) (clock b) (tl (tx_status b))
                      (tx_log b ++ [frame]) (emcy_log b))).
    { intros A k. unfold c', frame, coSYNC, bind, call, ret.
      destruct enable; cbn [tx bus_co syncCounter set_syncCounter rx emcy ms];
        unfold bus_tx; destruct (tx_status b); reflexivity. }
    cbn [sync_cycles]. rewrite Hstep.
    set (b1 := mkBus (rx_pending b) (clock b) (tl (tx_status b))
                 (tx_log b ++ [frame]) (emcy_log b)).
    destruct (IH c' b1 Hc') as [IHr IHl].
    unfold bind.
    destruct (sync_cycles enable n (bus_co c') b1) as [[[statuses co'] | f] b2];
      cbn [fst snd] in IHr, IHl; [| discriminate].
    injection IHr as -> ->. unfold ret. cbn [fst snd]. split.
    + f_equal. f_equal.
      * cbn [seq map]. f_equal. rewrite <- seq_shift, map_map.
        apply map_ext. intros k. unfold b1. cbn [tx_status].
        destruct (tx_status b) as [| s sts]; [now destruct k | reflexivity].
      * unfold c'. destruct enable; [| reflexivity].
        f_equal. unfold to_u8. change (2 ^ 8) with 256.
        rewrite Zplus_mod_idemp_l. f_equal. lia.
    + rewrite IHl. unfold b1. cbn [tx_log]. rewrite <- app_assoc. f_equal.
      unfold frame, c'. destruct enable.
      * cbn [app seq map]. rewrite Z.add_0_r, (Z.mod_small c) by lia.
        f_equal. rewrite <- seq_shift, map_map.
        apply map_ext. intros k. f_equal. f_equal.
        unfold to_u8. change (2 ^ 8) with 256.
        rewrite Nat2Z.inj_succ, Zplus_mod_idemp_l. f_equal. lia.
      * reflexivity.
Qed.

(** Three SYNCs with the counter at 255, the second send failing. *)
Lemma sync_cycles_run_wrap :
  0 <= 255 < 256 /\
  (fst (sync_cycles true 3 (bus_co 255) (mkBus [] [] [0; -1] [] []))
   = Ret ([0; -1; 0], bus_co 2)
   /\ tx_log (snd (sync_cycles true 3 (bus_co 255) (mkBus [] [] [0; -1] [] [])))
      = [mkMsg 0x080 1 [255; 0; 0; 0; 0; 0; 0; 0];
         mkMsg 0x080 1 [0; 0; 0; 0; 0; 0; 0; 0];
         mkMsg 0x080 1 [1; 0; 0; 0; 0; 0; 0; 0]]).
Proof.
  split; [lia |].
  apply (sync_cycles_run true 3 255 (mkBus [] [] [0; -1] [] [])). lia.
Defined.
